(** * Zoomagia sale parser: a shallow embedding of [parser_zoomagia.py]

    The development follows the source file top to bottom:

    - [PyStr]: Python [str] values as sequences of Unicode code points,
      with the [str] methods the parser calls ([strip], [startswith],
      [in], [split], [replace], [join]);
    - [Bs4]: the parsed document ([BeautifulSoup] object) as a tree of
      tags and strings, with [find], [select], [select_one], [.text],
      [get_text(strip=True)] and [decompose];
    - [Zoomagia]: the methods of [ZoomagiaParser], one definition per
      method, effects (network, clock, log, files) threaded through an
      explicit [world]. *)

From Stdlib Require Import List NArith Bool String Ascii Arith Lia.
From Stdlib Require Import DecimalString.
Import ListNotations.

Set Implicit Arguments.
Set Warnings "-register-all".

(* ================================================================== *)
(** ** Python strings *)
(* ================================================================== *)

Module PyStr.

(** A Python [str] is a sequence of code points. *)
Definition pystr := list N.

(** Source literals are written as UTF-8 text and decoded to code points. *)
Fixpoint utf8_decode (bs : list N) : pystr :=
  match bs with
  | [] => []
  | b :: r =>
    if (b <? 128)%N then b :: utf8_decode r
    else
      match r with
      | [] => []
      | b1 :: r1 =>
        if (b <? 224)%N
        then ((b mod 32) * 64 + b1 mod 64)%N :: utf8_decode r1
        else
          match r1 with
          | [] => []
          | b2 :: r2 =>
            if (b <? 240)%N
            then ((b mod 16) * 4096 + (b1 mod 64) * 64 + b2 mod 64)%N
                   :: utf8_decode r2
            else
              match r2 with
              | [] => []
              | b3 :: r3 =>
                ((b mod 8) * 262144 + (b1 mod 64) * 4096
                 + (b2 mod 64) * 64 + b3 mod 64)%N :: utf8_decode r3
              end
          end
      end
  end.

Definition py (s : string) : pystr :=
  utf8_decode (map N_of_ascii (list_ascii_of_string s)).

(** [c.isspace()] for one code point (CPython's [_PyUnicode_IsWhitespace]). *)
Definition isspace (c : N) : bool :=
  ((9 <=? c) && (c <=? 13) || (28 <=? c) && (c <=? 32)
   || (c =? 133) || (c =? 160) || (c =? 5760)
   || (8192 <=? c) && (c <=? 8202)
   || (c =? 8232) || (c =? 8233) || (c =? 8239) || (c =? 8287)
   || (c =? 12288))%N.

Fixpoint lstrip (s : pystr) : pystr :=
  match s with
  | [] => []
  | c :: r => if isspace c then lstrip r else s
  end.

Definition rstrip (s : pystr) : pystr := rev (lstrip (rev s)).

(** [s.strip()] *)
Definition strip (s : pystr) : pystr := rstrip (lstrip s).

(** Truth value of a [str]: non-empty. *)
Definition truthy (s : pystr) : bool :=
  match s with [] => false | _ :: _ => true end.

Fixpoint str_eqb (a b : pystr) : bool :=
  match a, b with
  | [], [] => true
  | x :: a', y :: b' => (x =? y)%N && str_eqb a' b'
  | _, _ => false
  end.

(** [s.startswith(p)] *)
Fixpoint startswith (p s : pystr) : bool :=
  match p, s with
  | [], _ => true
  | x :: p', y :: s' => (x =? y)%N && startswith p' s'
  | _ :: _, [] => false
  end.

(** [sub in s] *)
Fixpoint contains (sub s : pystr) : bool :=
  startswith sub s ||
  match s with
  | [] => false
  | _ :: r => contains sub r
  end.

(** [s.split(sep)] for a non-empty separator: the first piece and the
    pieces after it.  [skip] counts the code points of a separator that
    was just matched and still has to be passed over. *)
Fixpoint split_aux (sep : pystr) (skip : nat) (s : pystr)
  : pystr * list pystr :=
  match s with
  | [] => ([], [])
  | c :: r =>
    match skip with
    | S k => split_aux sep k r
    | O =>
      if startswith sep s
      then ([], let (p, ps) := split_aux sep (List.length sep - 1) r in p :: ps)
      else let (p, ps) := split_aux sep 0 r in (c :: p, ps)
    end
  end.

Definition split (sep s : pystr) : list pystr :=
  let (p, ps) := split_aux sep 0 s in p :: ps.

(** [s.split(sep)[0]]: a split is never empty, so the index is in range. *)
Definition split_head (sep s : pystr) : pystr := fst (split_aux sep 0 s).

(** [s.replace(old, new)]: every non-overlapping occurrence, left to
    right; an empty [old] matches before every code point and at the end. *)
Fixpoint replace_aux (old new : pystr) (skip : nat) (s : pystr) : pystr :=
  match s with
  | [] => []
  | c :: r =>
    match skip with
    | S k => replace_aux old new k r
    | O =>
      if startswith old s
      then new ++ replace_aux old new (List.length old - 1) r
      else c :: replace_aux old new 0 r
    end
  end.

Definition replace (old new s : pystr) : pystr :=
  match old with
  | [] => new ++ flat_map (fun c => c :: new) s
  | _ :: _ => replace_aux old new 0 s
  end.

(** [sep.join(pieces)] *)
Fixpoint join (sep : pystr) (pieces : list pystr) : pystr :=
  match pieces with
  | [] => []
  | [p] => p
  | p :: ps => p ++ sep ++ join sep ps
  end.

(** [str(n)] for a non-negative [int]. *)
Definition str_of_nat (n : nat) : pystr :=
  py (NilEmpty.string_of_uint (Nat.to_uint n)).

(** [s.split()] with no separator: the maximal runs of non-whitespace. *)
Definition words (s : pystr) : list pystr :=
  filter truthy
    (fold_right
       (fun c acc =>
          if isspace c then [] :: acc
          else match acc with
               | [] => [[c]]
               | w :: ws => (c :: w) :: ws
               end)
       [] s).

(** The line feed, written [\n] in the source. *)
Definition newline : pystr := [10%N].

(** A string is trimmed when [strip] leaves it as it is. *)
Definition trimmed (s : pystr) : Prop := strip s = s.

End PyStr.
Import PyStr.


(* ================================================================== *)
(** ** The parsed document (BeautifulSoup with [html.parser]) *)
(* ================================================================== *)

Module Bs4.

(** The classes of string objects a parsed tree holds.  Text inside
    [<script>], [<style>] and [<template>] is stored in a class of its
    own; comments, doctypes and the like count as [Comment] here. *)
Inductive strkind :=
| NavigableString | CData | Comment | Script | Stylesheet | TemplateString.

(** A tag's attribute dictionary. *)
Definition attrs := list (pystr * pystr).

Inductive node :=
| Str (k : strkind) (s : pystr)
| Tag (nm : pystr) (a : attrs) (cs : list node).

(** Name and attributes of an enclosing tag. *)
Record header := mkHeader { h_name : pystr; h_attrs : attrs }.

(** A [Tag] object as the program holds it: the tag with the chain of its
    parents, nearest first.  The [BeautifulSoup] object is the tag named
    [[document]] with no parent. *)
Record tag := mkTag {
  parents : list header;
  name : pystr;
  tag_attrs : attrs;
  contents : list node
}.

Definition document (cs : list node) : tag := mkTag [] (py "[document]") [] cs.

Definition header_of (t : tag) : header := mkHeader (name t) (tag_attrs t).

(** [tag.get(key)] *)
Fixpoint attr_get (a : attrs) (key : pystr) : option pystr :=
  match a with
  | [] => None
  | (k, v) :: r => if str_eqb k key then Some v else attr_get r key
  end.

Definition get (t : tag) (key : pystr) : option pystr :=
  attr_get (tag_attrs t) key.

(** Truth value of [tag.get(key)]: present and non-empty. *)
Definition get_truthy (t : tag) (key : pystr) : option pystr :=
  match get t key with
  | Some v => if truthy v then Some v else None
  | None => None
  end.

(** *** Text *)

(** Every string object below a node, in document order. *)
Fixpoint all_strings (n : node) : list (strkind * pystr) :=
  match n with
  | Str k s => [(k, s)]
  | Tag _ _ cs => flat_map all_strings cs
  end.

Definition strkind_eqb (a b : strkind) : bool :=
  match a, b with
  | NavigableString, NavigableString | CData, CData | Comment, Comment
  | Script, Script | Stylesheet, Stylesheet
  | TemplateString, TemplateString => true
  | _, _ => false
  end.

(** The string classes a tag counts as its text
    ([interesting_string_types]). *)
Definition interesting (tagname : pystr) (k : strkind) : bool :=
  if str_eqb tagname (py "script") then strkind_eqb k Script
  else if str_eqb tagname (py "style") then strkind_eqb k Stylesheet
  else if str_eqb tagname (py "template") then strkind_eqb k TemplateString
  else strkind_eqb k NavigableString || strkind_eqb k CData.

(** The strings [_all_strings] yields for a tag, before any stripping. *)
Definition strings (t : tag) : list pystr :=
  map snd
    (filter (fun ks => interesting (name t) (fst ks))
       (flat_map all_strings (contents t))).

(** [tag.text] *)
Definition text (t : tag) : pystr := List.concat (strings t).

(** [tag.get_text(strip=True, separator=sep)]: every string stripped,
    the empty ones left out, the rest joined. *)
Definition stripped_strings (t : tag) : list pystr :=
  filter truthy (map strip (strings t)).

Definition get_text_strip (sep : pystr) (t : tag) : pystr :=
  join sep (stripped_strings t).

(** *** Selectors *)

Inductive simple :=
| ByClass (c : pystr)   (* .c *)
| ByTag (t : pystr)     (* t *)
| ById (i : pystr).     (* #i *)

Inductive complex :=
| Simple (s : simple)              (* s *)
| Descendant (anc s : simple).     (* anc s *)

(** A comma-separated selector list. *)
Definition selector := list complex.

Definition simple_match (s : simple) (nm : pystr) (a : attrs) : bool :=
  match s with
  | ByClass c =>
    match attr_get a (py "class") with
    | Some v => existsb (str_eqb c) (words v)
    | None => false
    end
  | ByTag t => str_eqb t nm
  | ById i =>
    match attr_get a (py "id") with
    | Some v => str_eqb i v
    | None => false
    end
  end.

Definition complex_match (c : complex) (ctx : list header)
           (nm : pystr) (a : attrs) : bool :=
  match c with
  | Simple s => simple_match s nm a
  | Descendant anc s =>
    simple_match s nm a
    && existsb (fun h => simple_match anc (h_name h) (h_attrs h)) ctx
  end.

Definition selector_match (sel : selector) (ctx : list header)
           (nm : pystr) (a : attrs) : bool :=
  existsb (fun c => complex_match c ctx nm a) sel.

(** The test of [find(name, attrs)]. *)
Definition find_match (tagname : pystr) (want : attrs) (ctx : list header)
           (nm : pystr) (a : attrs) : bool :=
  str_eqb tagname nm
  && forallb (fun kv => match attr_get a (fst kv) with
                        | Some v => str_eqb (snd kv) v
                        | None => false
                        end) want.

(** *** Searching below a tag, in document order *)

Section Search.
Variable p : list header -> pystr -> attrs -> bool.

Fixpoint search (ctx : list header) (n : node) : list tag :=
  match n with
  | Str _ _ => []
  | Tag nm a cs =>
    (if p ctx nm a then [mkTag ctx nm a cs] else [])
    ++ flat_map (search (mkHeader nm a :: ctx)) cs
  end.

Definition descendants_matching (t : tag) : list tag :=
  flat_map (search (header_of t :: parents t)) (contents t).

End Search.

(** [tag.select(sel)] *)
Definition select (t : tag) (sel : selector) : list tag :=
  descendants_matching (selector_match sel) t.

(** [tag.select_one(sel)] *)
Definition select_one (t : tag) (sel : selector) : option tag :=
  hd_error (select t sel).

(** [tag.find(name, attrs)] *)
Definition find (t : tag) (tagname : pystr) (want : attrs) : option tag :=
  hd_error (descendants_matching (find_match tagname want) t).

(** *** Mutation: [decompose] *)

Section Remove.
Variable p : list header -> pystr -> attrs -> bool.

(** A node after every matching tag at or below it was decomposed. *)
Fixpoint remove_node (ctx : list header) (n : node) : list node :=
  match n with
  | Str _ _ => [n]
  | Tag nm a cs =>
    if p ctx nm a then []
    else [Tag nm a (flat_map (remove_node (mkHeader nm a :: ctx)) cs)]
  end.

(** [for element in tag.select(..): element.decompose()], seen from the
    tag itself. *)
Definition decompose_all (t : tag) : tag :=
  mkTag (parents t) (name t) (tag_attrs t)
        (flat_map (remove_node (header_of t :: parents t)) (contents t)).

End Remove.

Section Update.
Variable A : Type.
Variable g : A -> option A.

(** Rewrites the first element of a list on which [g] answers. *)
Fixpoint update_first (l : list A) : option (list A) :=
  match l with
  | [] => None
  | x :: r =>
    match g x with
    | Some x' => Some (x' :: r)
    | None =>
      match update_first r with
      | Some r' => Some (x :: r')
      | None => None
      end
    end
  end.

End Update.

Section Within.
Variable p : list header -> pystr -> attrs -> bool.
Variable f : tag -> tag.

(** The tree after the first tag (in document order) that satisfies [p]
    had its contents changed by [f]; [None] when no tag does. *)
Fixpoint update_node (ctx : list header) (n : node) : option node :=
  match n with
  | Str _ _ => None
  | Tag nm a cs =>
    if p ctx nm a
    then Some (Tag nm a (contents (f (mkTag ctx nm a cs))))
    else
      match update_first (update_node (mkHeader nm a :: ctx)) cs with
      | Some cs' => Some (Tag nm a cs')
      | None => None
      end
  end.

(** The same document object after [f] mutated its first matching
    descendant. *)
Definition update_within (t : tag) : tag :=
  match update_first (update_node (header_of t :: parents t)) (contents t) with
  | Some cs' => mkTag (parents t) (name t) (tag_attrs t) cs'
  | None => t
  end.

End Within.

End Bs4.
Import Bs4.

(* ================================================================== *)
(** ** The parser ([class ZoomagiaParser]) *)
(* ================================================================== *)

Module Zoomagia.

(** *** Values kept in the product dictionaries and dumped as JSON *)

Inductive pyval :=
| PNone
| PStr (s : pystr)
| PList (l : list pyval)
| PDict (d : list (string * pyval)).

(** A [dict] with [str] keys, in insertion order. *)
Definition dict := list (string * pyval).

Fixpoint dict_get (d : dict) (k : string) : option pyval :=
  match d with
  | [] => None
  | (k', v) :: r => if String.eqb k' k then Some v else dict_get r k
  end.

(** [d[k] = v] *)
Fixpoint dict_set (d : dict) (k : string) (v : pyval) : dict :=
  match d with
  | [] => [(k, v)]
  | (k', v') :: r =>
    if String.eqb k' k then (k, v) :: r else (k', v') :: dict_set r k v
  end.

(** Truth value of an [Optional[Dict]]: not [None] and not empty. *)
Definition dict_truthy (d : option dict) : bool :=
  match d with
  | Some (_ :: _) => true
  | _ => false
  end.

(** [x in xs] for a list of strings. *)
Definition str_in (x : pystr) (xs : list pystr) : bool := existsb (str_eqb x) xs.

(** *** Exceptions, the clock and the world outside *)

Inductive exn :=
| RequestException (msg : pystr)   (* connection errors, timeouts *)
| HTTPError (msg : pystr)          (* [raise_for_status] *)
| ParserError (msg : pystr)        (* raised while building the tree *)
| OSError (msg : pystr)            (* [open], a write to a full disk *)
| UnicodeEncodeError (msg : pystr). (* [json.dump] writing a lone surrogate *)

(** [str(e)] *)
Definition str_exn (e : exn) : pystr :=
  match e with
  | RequestException m | HTTPError m | ParserError m | OSError m
  | UnicodeEncodeError m => m
  end.

Inductive result (A : Type) :=
| Ok (a : A)
| Raise (e : exn).
Arguments Ok {A} a.
Arguments Raise {A} e.

Record response := mkResponse {
  status_code : nat;
  reason : pystr;
  resp_url : pystr;
  resp_text : pystr
}.

Record datetime := mkDatetime {
  year : nat; month : nat; day : nat;
  hour : nat; minute : nat; second : nat; microsecond : nat
}.

(** Decimal digits of [n], zero-padded on the left to [width]. *)
Definition zfill (width n : nat) : pystr :=
  let ds := str_of_nat n in
  repeat 48%N (width - List.length ds) ++ ds.

(** [d.isoformat()] *)
Definition isoformat (d : datetime) : pystr :=
  zfill 4 (year d) ++ py "-" ++ zfill 2 (month d) ++ py "-" ++ zfill 2 (day d)
  ++ py "T" ++ zfill 2 (hour d) ++ py ":" ++ zfill 2 (minute d) ++ py ":"
  ++ zfill 2 (second d)
  ++ match microsecond d with
     | O => []
     | S _ => py "." ++ zfill 6 (microsecond d)
     end.

(** [d.strftime('%Y%m%d_%H%M%S')] *)
Definition strftime_stamp (d : datetime) : pystr :=
  zfill 4 (year d) ++ zfill 2 (month d) ++ zfill 2 (day d) ++ py "_"
  ++ zfill 2 (hour d) ++ zfill 2 (minute d) ++ zfill 2 (second d).

Inductive level := INFO | WARNING | ERROR.

(** What [open(name, 'w')] followed by [json.dump] leaves in a file:
    the whole document, or, when the dump raised part-way, the emptied
    file with whatever part of the text had reached it. *)
Inductive file_content :=
| Dumped (data : pyval)
| Partial.

(** What a run can change: the log file, the files opened for writing
    (every such event, oldest first, with what it left in the file; a
    later event for the same name replaces the file), the number of
    clock readings taken and the seconds slept. *)
Record world := mkWorld {
  log : list (level * pystr);
  writes : list (pystr * file_content);
  clock_reads : nat;
  slept : nat
}.

(** Computations that change the world and may raise. *)
Definition M (A : Type) := world -> result A * world.

Definition ret {A} (a : A) : M A := fun w => (Ok a, w).

Definition raise {A} (e : exn) : M A := fun w => (Raise e, w).

Definition bind {A B} (c : M A) (k : A -> M B) : M B :=
  fun w =>
    match c w with
    | (Ok a, w') => k a w'
    | (Raise e, w') => (Raise e, w')
    end.

(** [try: body  except Exception as e: handler e] *)
Definition try_except {A} (body : M A) (handler : exn -> M A) : M A :=
  fun w =>
    match body w with
    | (Ok a, w') => (Ok a, w')
    | (Raise e, w') => handler e w'
    end.

Definition lift {A} (r : result A) : M A := fun w => (r, w).

Notation "x <- c ;; k" := (bind c (fun x => k))
  (at level 61, c at next level, right associativity).
Notation "c ;;; k" := (bind c (fun _ => k))
  (at level 61, right associativity).

Definition logging (l : level) (msg : pystr) : M unit :=
  fun w => (Ok tt, mkWorld (log w ++ [(l, msg)]) (writes w)
                           (clock_reads w) (slept w)).

Definition time_sleep (seconds : nat) : M unit :=
  fun w => (Ok tt, mkWorld (log w) (writes w) (clock_reads w)
                           (slept w + seconds)).

(** [response.raise_for_status()] *)
Definition raise_for_status (r : response) : M unit :=
  if (400 <=? status_code r) && (status_code r <? 500)
  then raise (HTTPError (str_of_nat (status_code r) ++ py " Client Error: "
                         ++ reason r ++ py " for url: " ++ resp_url r))
  else if (500 <=? status_code r) && (status_code r <? 600)
  then raise (HTTPError (str_of_nat (status_code r) ++ py " Server Error: "
                         ++ reason r ++ py " for url: " ++ resp_url r))
  else ret tt.

(** *** [__init__] *)

Definition base_url : pystr := py "https://zoomagia.ru".
Definition sale_url : pystr := base_url ++ py "/shop/sale".

(** *** The CSS selectors the methods use *)

Definition sel_title_a : selector := (* .title a *)
  [Descendant (ByClass (py "title")) (ByTag (py "a"))].
Definition sel_brand_a : selector := (* .brand a *)
  [Descendant (ByClass (py "brand")) (ByTag (py "a"))].
Definition sel_price_block : selector := (* .packing-price-item *)
  [Simple (ByClass (py "packing-price-item"))].
Definition sel_price_del : selector := (* .price-del *)
  [Simple (ByClass (py "price-del"))].
Definition sel_discount_badge : selector := (* .price-customer-discount-badge *)
  [Simple (ByClass (py "price-customer-discount-badge"))].
Definition sel_breadcrumbs : selector := (* .shop-head-menu li *)
  [Descendant (ByClass (py "shop-head-menu")) (ByTag (py "li"))].
Definition sel_big_image : selector := (* .simpleLens-big-image *)
  [Simple (ByClass (py "simpleLens-big-image"))].
Definition sel_thumbnails : selector := (* .simpleLens-thumbnails-container img *)
  [Descendant (ByClass (py "simpleLens-thumbnails-container")) (ByTag (py "img"))].
Definition sel_packing : selector := (* .product-show-packing *)
  [Simple (ByClass (py "product-show-packing"))].
Definition sel_comments : selector := (* .product-comments-block li *)
  [Descendant (ByClass (py "product-comments-block")) (ByTag (py "li"))].
Definition sel_grid_product : selector := (* .grid-product *)
  [Simple (ByClass (py "grid-product"))].
Definition script_or_style : selector := (* script, style *)
  [Simple (ByTag (py "script")); Simple (ByTag (py "style"))].
Definition tab_des : selector := [Simple (ById (py "product-des"))].
Definition tab_composition : selector := [Simple (ById (py "product-composition"))].
Definition tab_analysis : selector := [Simple (ById (py "product-analysis"))].
Definition tab_feeding_rates : selector := [Simple (ById (py "product-feeding_rates"))].

(** *** Field extractors *)

Definition _get_name (soup : tag) : pystr :=
  let from_h1 :=
    match find soup (py "h1") [] with
    | Some h1 => strip (text h1)
    | None => []
    end in
  match find soup (py "title") [] with
  | Some title =>
    let title_text := strip (text title) in
    if contains (py "–") title_text
    then strip (split_head (py "–") title_text)
    else from_h1
  | None => from_h1
  end.

Definition _get_manufacturer (soup : tag) : pystr :=
  let from_brand :=
    match select_one soup sel_brand_a with
    | Some brand_link => strip (text brand_link)
    | None => []
    end in
  match find soup (py "meta") [(py "name", py "keywords")] with
  | Some meta =>
    match get_truthy meta (py "content") with
    | Some c =>
      let content := strip c in
      let parts := map strip (split (py ",") content) in
      let parts := filter truthy parts in
      match parts with
      | _ :: _ => last parts []
      | [] => from_brand
      end
    | None => from_brand
    end
  | None => from_brand
  end.

Definition _get_price (soup : tag) : dict :=
  let price_data :=
    [("old_price", PStr []); ("current_price", PStr []); ("discount", PStr [])]%string in
  match select_one soup sel_price_block with
  | Some price_block =>
    let old_price := select_one price_block sel_price_del in
    let price_data :=
      match old_price with
      | Some o => dict_set price_data "old_price" (PStr (strip (text o)))
      | None => price_data
      end in
    let price_text := strip (text price_block) in
    let price_data :=
      match old_price with
      | Some o =>
        let current_price :=
          strip (replace (py "₽") []
                   (replace (strip (text o)) [] price_text)) in
        dict_set price_data "current_price" (PStr current_price)
      | None => price_data
      end in
    let discount_block :=
      select_one price_block
        sel_discount_badge in
    match discount_block with
    | Some d => dict_set price_data "discount" (PStr (strip (text d)))
    | None => price_data
    end
  | None => price_data
  end.

Definition _get_category (soup : tag) : pystr :=
  let breadcrumbs :=
    select soup sel_breadcrumbs in
  if 2 <=? List.length breadcrumbs then
    match nth_error breadcrumbs (List.length breadcrumbs - 2) with
    | Some b =>
      let category := strip (text b) in
      if truthy category then category else []
    | None => []
    end
  else [].

Definition _get_images (soup : tag) : list pystr :=
  let images :=
    match select_one soup sel_big_image with
    | Some main_image =>
      match get_truthy main_image (py "src") with
      | Some src => [src]
      | None => []
      end
    | None => []
    end in
  fold_left
    (fun images img =>
       match get_truthy img (py "src") with
       | Some src => if str_in src images then images else images ++ [src]
       | None => images
       end)
    (select soup sel_thumbnails)
    images.

Definition _get_weight (soup : tag) : list pystr :=
  fold_left
    (fun weights weight_item =>
       let weight := strip (text weight_item) in
       if truthy weight then weights ++ [weight] else weights)
    (select soup sel_packing)
    [].

(** The tab's script and style tags are decomposed inside the document
    itself, so the document comes back changed. *)
Definition _get_tab_content (soup : tag) (tab_id : selector) : pystr * tag :=
  match select_one soup tab_id with
  | Some tab =>
    let tab' := decompose_all (selector_match script_or_style) tab in
    (get_text_strip newline tab',
     update_within (selector_match tab_id)
                   (decompose_all (selector_match script_or_style)) soup)
  | None => ([], soup)
  end.

Definition _get_reviews (soup : tag) : list dict :=
  fold_left
    (fun reviews review =>
       let review_data := [("text"%string, PStr (get_text_strip [] review))] in
       reviews ++ [review_data])
    (select soup sel_comments)
    [].

(** *** Assembling one product *)

(** The dictionary literal of [parse_product], its values computed in
    the order written; the document is returned as the extractors left
    it. *)
Definition product_fields (soup : tag) (url parsed_date : pystr) : dict * tag :=
  let name := _get_name soup in
  let manufacturer := _get_manufacturer soup in
  let price := _get_price soup in
  let category := _get_category soup in
  let images := _get_images soup in
  let weight := _get_weight soup in
  let (description, soup) := _get_tab_content soup tab_des in
  let (composition, soup) := _get_tab_content soup tab_composition in
  let (analysis, soup) := _get_tab_content soup tab_analysis in
  let (feeding_norm, soup) := _get_tab_content soup tab_feeding_rates in
  let reviews := _get_reviews soup in
  ([("name", PStr name);
    ("manufacturer", PStr manufacturer);
    ("price", PDict price);
    ("category", PStr category);
    ("images", PList (map PStr images));
    ("weight", PList (map PStr weight));
    ("description", PStr description);
    ("composition", PStr composition);
    ("analysis", PStr analysis);
    ("feeding_norm", PStr feeding_norm);
    ("reviews", PList (map PDict reviews));
    ("url", PStr url);
    ("parsed_date", PStr parsed_date)]%string,
   soup).

(** [isinstance(value, str) and not value.strip()] *)
Definition blank_str (value : pyval) : bool :=
  match value with
  | PStr s => negb (truthy (strip s))
  | _ => false
  end.

(** The loop over [product_data.items()] that follows the literal. *)
Definition normalize (product_data : dict) : dict :=
  fold_left
    (fun product_data kv =>
       if blank_str (snd kv) then dict_set product_data (fst kv) PNone
       else product_data)
    product_data product_data.

(** The record [parse_product] returns for a parsed page. *)
Definition product_record (soup : tag) (url parsed_date : pystr) : dict :=
  normalize (fst (product_fields soup url parsed_date)).

Section Environment.

(** The world the parser talks to: the web server behind [requests.get]
    (headers and timeout are fixed by the caller), the HTML parser behind
    [BeautifulSoup(text, 'html.parser')], the clock, whose [n]-th reading
    is [now n], and the file system, where opening a file for writing may
    raise and where [json.dump] of a document into an opened file may
    raise (a string that cannot be encoded, a disk that fills up). *)
Variable requests_get : pystr -> result response.
Variable html_parser : pystr -> result tag.
Variable now : nat -> datetime.
Variable open_w : pystr -> result unit.
Variable json_dump : pystr -> pyval -> result unit.

Definition datetime_now : M datetime :=
  fun w => (Ok (now (clock_reads w)),
            mkWorld (log w) (writes w) (S (clock_reads w)) (slept w)).

(** [with open(filename, 'w') as f: json.dump(data, f, ...)] *)
Definition write_json (filename : pystr) (data : pyval) : M unit :=
  fun w =>
    match open_w filename with
    | Ok _ =>
      match json_dump filename data with
      | Ok _ => (Ok tt, mkWorld (log w) (writes w ++ [(filename, Dumped data)])
                                (clock_reads w) (slept w))
      | Raise e => (Raise e, mkWorld (log w) (writes w ++ [(filename, Partial)])
                                     (clock_reads w) (slept w))
      end
    | Raise e => (Raise e, w)
    end.

(** The loop of [get_product_links] over the listing's items. *)
Definition product_links_of (soup : tag) : list pystr :=
  let products := select soup sel_grid_product in
  fold_left
    (fun product_links product =>
       match select_one product
               sel_title_a with
       | Some link =>
         match get_truthy link (py "href") with
         | Some href =>
           let full_url :=
             if startswith (py "http") href then href else base_url ++ href in
           product_links ++ [full_url]
         | None => product_links
         end
       | None => product_links
       end)
    products [].

Definition get_product_links : M (list pystr) :=
  try_except
    (logging INFO (py "Fetching product links from " ++ sale_url) ;;;
     response <- lift (requests_get sale_url) ;;
     raise_for_status response ;;;
     soup <- lift (html_parser (resp_text response)) ;;
     let product_links := product_links_of soup in
     logging INFO (py "Found " ++ str_of_nat (List.length product_links)
                   ++ py " product links") ;;;
     ret product_links)
    (fun e =>
       logging ERROR (py "Error getting product links: " ++ str_exn e) ;;;
       ret []).

Definition parse_product (url : pystr) : M (option dict) :=
  try_except
    (logging INFO (py "Parsing product: " ++ url) ;;;
     response <- lift (requests_get url) ;;
     raise_for_status response ;;;
     soup <- lift (html_parser (resp_text response)) ;;
     parsed_date <- datetime_now ;;
     ret (Some (product_record soup url (isoformat parsed_date))))
    (fun e =>
       logging ERROR (py "Error parsing product " ++ url ++ py ": " ++ str_exn e) ;;;
       ret None).

Definition latest_file : pystr := py "output/zoomagia_products.json".

Definition save_to_json (data : list dict) (filename : pystr) : M unit :=
  try_except
    (t <- datetime_now ;;
     let timestamp := strftime_stamp t in
     let filename_with_timestamp :=
       py "output/zoomagia_products_" ++ timestamp ++ py ".json" in
     write_json filename_with_timestamp (PList (map PDict data)) ;;;
     write_json filename (PList (map PDict data)) ;;;
     logging INFO (py "Data successfully saved to " ++ filename ++ py " and "
                   ++ filename_with_timestamp))
    (fun e => logging ERROR (py "Error saving data to JSON: " ++ str_exn e)).

(** The [for i, link in enumerate(product_links)] loop of [run_parser];
    [total] is [len(product_links)]. *)
Fixpoint process_links (total i : nat) (links : list pystr)
         (products_data : list dict) : M (list dict) :=
  match links with
  | [] => ret products_data
  | link :: rest =>
    logging INFO (py "Processing product " ++ str_of_nat (i + 1) ++ py "/"
                  ++ str_of_nat total ++ py ": " ++ link) ;;;
    product_data <- parse_product link ;;
    let products_data :=
      match product_data with
      | Some d => if dict_truthy product_data then products_data ++ [d]
                  else products_data
      | None => products_data
      end in
    time_sleep 2 ;;;
    process_links total (S i) rest products_data
  end.

Definition run_parser : M unit :=
  logging INFO (py "Starting parser run") ;;;
  product_links <- get_product_links ;;
  products_data <- process_links (List.length product_links) 0 product_links [] ;;
  match products_data with
  | _ :: _ =>
    save_to_json products_data latest_file ;;;
    logging INFO (py "Parser run completed. Processed "
                  ++ str_of_nat (List.length products_data) ++ py " products")
  | [] => logging WARNING (py "No products were successfully parsed")
  end.

End Environment.

End Zoomagia.
Import Zoomagia.

Unset Implicit Arguments.

(* ================================================================== *)
(** ** Sample pages *)
(* ================================================================== *)

Module Pages.

(** [<nm k=v ...> cs </nm>] and a piece of text, written with ASCII or
    UTF-8 literals. *)
Definition el (nm : string) (a : list (string * string)) (cs : list node) : node :=
  Tag (py nm) (map (fun kv => (py (fst kv), py (snd kv))) a) cs.

Definition txt (s : string) : node := Str NavigableString (py s).

(** A price block with a struck-through old price. *)
Definition price_block_sale : node :=
  el "div" [("class", "packing-price-item")]%string
     [el "span" [("class", "price-del")]%string [txt "2000 ₽"]; txt "1500 ₽"].

Definition page_sale : tag :=
  document [el "html" [] [el "body" [] [price_block_sale]]].

(** A price block that only shows the current price. *)
Definition page_no_old_price : tag :=
  document
    [el "html" []
        [el "body" []
            [el "div" [("class", "packing-price-item")]%string [txt " 1500 ₽ "]]]].

(** A page whose title has no dash. *)
Definition page_plain_title : tag :=
  document
    [el "html" []
        [el "head" [] [el "title" [] [txt "Cat food"]];
         el "body" [] [el "h1" [] [txt " Sale "]]]].

(** A page with a dashed title. *)
Definition page_dashed_title : tag :=
  document
    [el "html" []
        [el "head" [] [el "title" [] [txt " Cat food – Zoomagia "]];
         el "body" [] [el "h1" [] [txt "Sale"]]]].

(** A product page with every field filled in. *)
Definition page_full : tag :=
  document
    [el "html" []
       [el "head" []
           [el "title" [] [txt "Cat food – Zoomagia"];
            el "meta" [("name", "keywords"); ("content", "food, cats, , Acme ")]%string []];
        el "body" []
           [el "ul" [("class", "shop-head-menu")]%string
               [el "li" [] [txt "Home"]; el "li" [] [txt " Cats "];
                el "li" [] [txt "Cat food"]];
            el "h1" [] [txt "Cat food"];
            el "img" [("class", "simpleLens-big-image"); ("src", "/img/a.jpg")]%string [];
            el "div" [("class", "gallery simpleLens-thumbnails-container")]%string
               [el "img" [("src", "/img/a.jpg")]%string [];
                el "img" [("src", "/img/b.jpg")]%string [];
                el "img" [] [];
                el "img" [("src", "/img/b.jpg")]%string [];
                el "img" [("src", "/img/c.jpg")]%string []];
            el "div" [("class", "packing-price-item")]%string
               [el "span" [("class", "price-del")]%string [txt "2000 ₽"];
                txt "1500 ₽";
                el "span" [("class", "price-customer-discount-badge")]%string
                   [txt " -25% "]];
            el "span" [("class", "product-show-packing")]%string [txt " 1 kg "];
            el "span" [("class", "product-show-packing")]%string [txt "  "];
            el "span" [("class", "product-show-packing")]%string [txt "5 kg"];
            el "div" [("id", "product-des")]%string
               [el "script" [] [Str Script (py "var x = 1;")];
                el "p" [] [txt " Tasty "]; el "p" [] [txt "food"]];
            el "ul" [("class", "product-comments-block")]%string
               [el "li" [] [txt " Great "];
                el "li" [] [txt " "];
                el "li" [] [txt "Good "; el "b" [] [txt "food"]]]]]].

(** A listing with two items; the second link is relative and its
    [href] ends in a space. *)
Definition page_listing : tag :=
  document
    [el "html" []
       [el "body" []
           [el "div" [("class", "grid-product")]%string
               [el "div" [("class", "title")]%string
                   [el "a" [("href", "https://zoomagia.ru/shop/a")]%string [txt "A"]]];
            el "div" [("class", "grid-product")]%string
               [el "div" [("class", "title")]%string
                   [el "a" [("href", "/shop/b ")]%string [txt "B"]]]]]].

(** A listing without items. *)
Definition page_empty_listing : tag :=
  document [el "html" [] [el "body" [] [el "p" [] [txt "No sale today"]]]].

(** A server that answers every request with status 200 and the URL as
    body, and one that times out on the URLs in [down]. *)
Definition server_up (url : pystr) : result response :=
  Ok (mkResponse 200 (py "OK") url url).

Definition server_down_for (down : list pystr) (url : pystr) : result response :=
  if str_in url down then Raise (RequestException (py "Read timed out."))
  else server_up url.

(** A parser that knows the sale page as [listing] and every other page
    as [product]. *)
Definition parser_of (listing product : tag) (body : pystr) : result tag :=
  if str_eqb body sale_url then Ok listing else Ok product.

Definition clock (n : nat) : datetime := mkDatetime 2024 1 15 10 30 n 0.

Definition disk_ok (filename : pystr) : result unit := Ok tt.

Definition disk_full (filename : pystr) : result unit :=
  Raise (OSError (py "No space left on device")).

(** A [json.dump] into a UTF-8 file: it raises on a document that holds
    a surrogate code point, which UTF-8 cannot encode. *)
Fixpoint has_surrogate (v : pyval) : bool :=
  match v with
  | PNone => false
  | PStr s => existsb (fun c => (55296 <=? c)%N && (c <=? 57343)%N) s
  | PList l => existsb has_surrogate l
  | PDict d => existsb (fun kv => has_surrogate (snd kv)) d
  end.

Definition dump_utf8 (filename : pystr) (data : pyval) : result unit :=
  if has_surrogate data
  then Raise (UnicodeEncodeError (py "'utf-8' codec can't encode character: surrogates not allowed"))
  else Ok tt.

(** A product page whose heading carries the character reference
    [&#xD800;], which the parser turns into a lone surrogate. *)
Definition page_surrogate : tag :=
  document
    [Tag (py "html") []
       [Tag (py "body") []
          [Tag (py "h1") [] [Str NavigableString (py "Cat" ++ [55296%N])]]]].

Definition w0 : world := mkWorld [] [] 0 0.

(** A page whose big image has an empty [src]. *)
Definition page_empty_src : tag :=
  document
    [el "html" []
       [el "body" []
           [Tag (py "img") [(py "class", py "simpleLens-big-image"); (py "src", [])] [];
            el "div" [("class", "simpleLens-thumbnails-container")]%string
               [el "img" [("src", "/img/a.jpg")]%string []]]]].

(** A listing whose only item has two anchors under its title, the
    first one without [href]. *)
Definition page_listing_two_anchors : tag :=
  document
    [el "html" []
       [el "body" []
           [el "div" [("class", "grid-product")]%string
               [el "div" [("class", "title")]%string
                   [el "a" [("name", "top")]%string [];
                    el "a" [("href", "/shop/a")]%string [txt "A"]]]]]].

(** A product page whose description tab holds the script that carries
    the big image's class. *)
Definition page_script_in_tab : tag :=
  document
    [el "html" []
       [el "body" []
           [el "div" [("id", "product-des")]%string
               [el "script" [("class", "simpleLens-big-image");
                             ("src", "/js/zoom.js")]%string [];
                el "p" [] [txt "Tasty"]]]]].

(** A product page whose description tab holds no script. *)
Definition page_plain_tab : tag :=
  document
    [el "html" []
       [el "body" []
           [el "div" [("id", "product-des")]%string
               [el "p" [] [txt " Tasty "]; el "p" [] [txt "food"]];
            el "img" [("class", "simpleLens-big-image"); ("src", "/img/a.jpg")]%string []]]].

End Pages.
Import Pages.

(* ================================================================== *)
(** ** Notions used to state the properties *)
(* ================================================================== *)

(** The string is empty or starts with a non-space. *)
Definition head_ok (s : pystr) : bool :=
  match s with
  | [] => true
  | c :: _ => negb (isspace c)
  end.

(** Both ends of the string are non-space (or the string is empty). *)
Definition ends_clean (s : pystr) : bool := head_ok s && head_ok (rev s).

(** The current price as the specification words it: the block's full
    text with the old-price text (when there is one) and the currency
    symbol removed, then trimmed. *)
Definition spec_current_price (price_block : tag) : pystr :=
  let without_old :=
    match select_one price_block sel_price_del with
    | Some o => replace (strip (text o)) [] (text price_block)
    | None => text price_block
    end in
  strip (replace (py "₽") [] without_old).

(** The separator of the page title, U+2013. *)
Definition dash : N := 8211%N.

(** The title is missing, or its trimmed text holds no dash. *)
Definition no_dashed_title (soup : tag) : Prop :=
  find soup (py "title") [] = None
  \/ exists title, find soup (py "title") [] = Some title
                   /\ ~ In dash (strip (text title)).

(** One round of the loop. *)
Definition norm_step (acc : dict) (kv : string * pyval) : dict :=
  if blank_str (snd kv) then dict_set acc (fst kv) PNone else acc.

(** The value the loop writes for one item. *)
Definition normalized (v : pyval) : pyval := if blank_str v then PNone else v.

(** The document after the four tab extractors ran over it. *)
Definition after_des (soup : tag) : tag := snd (_get_tab_content soup tab_des).

Definition after_composition (soup : tag) : tag :=
  snd (_get_tab_content (after_des soup) tab_composition).

Definition after_analysis (soup : tag) : tag :=
  snd (_get_tab_content (after_composition soup) tab_analysis).

Definition after_tabs (soup : tag) : tag :=
  snd (_get_tab_content (after_analysis soup) tab_feeding_rates).

(** The string fields an extractor computes. *)
Definition extracted_string_fields : list string :=
  ["name"; "manufacturer"; "category"; "description"; "composition";
   "analysis"; "feeding_norm"]%string.

(** A product URL as [get_product_links] builds it from the second item
    of [page_listing]. *)
Definition url_with_space : pystr := py "https://zoomagia.ru/shop/b ".

(** The first occurrence of every string, in order. *)
Fixpoint first_occurrences (l : list pystr) : list pystr :=
  match l with
  | [] => []
  | x :: r => x :: filter (fun y => negb (str_eqb x y)) (first_occurrences r)
  end.

(** The non-empty [src] of a tag, if it has one. *)
Definition src_of (img : tag) : list pystr :=
  match get_truthy img (py "src") with
  | Some src => [src]
  | None => []
  end.

(** The [src] of the big image, as [_get_images] starts its list. *)
Definition main_src (soup : tag) : list pystr :=
  match select_one soup sel_big_image with
  | Some main_image => src_of main_image
  | None => []
  end.

(** The thumbnails' [src]s in document order. *)
Definition thumbnail_srcs (soup : tag) : list pystr :=
  flat_map src_of (select soup sel_thumbnails).

(** One round of the thumbnail loop. *)
Definition add_image (images : list pystr) (img : tag) : list pystr :=
  match get_truthy img (py "src") with
  | Some src => if str_in src images then images else images ++ [src]
  | None => images
  end.

(** [href] made absolute, as [get_product_links] does. *)
Definition full_url (href : pystr) : pystr :=
  if startswith (py "http") href then href else base_url ++ href.

(** The URL one listing item contributes. *)
Definition item_url (product : tag) : list pystr :=
  match select_one product sel_title_a with
  | Some link =>
    match get_truthy link (py "href") with
    | Some href => [full_url href]
    | None => []
    end
  | None => []
  end.

(** The page [get_product_links] reads: the response to the request for
    the sale page passes [raise_for_status] and parses to [soup]. *)
Definition fetched (requests_get : pystr -> result response)
           (html_parser : pystr -> result tag) (url : pystr) (soup : tag) : Prop :=
  exists r, requests_get url = Ok r
            /\ ((status_code r <? 400) || (600 <=? status_code r)) = true
            /\ html_parser (resp_text r) = Ok soup.

(** The record one comment item contributes. *)
Definition review_of (item : tag) : dict :=
  [("text"%string, PStr (get_text_strip [] item))].

(** The exception [raise_for_status] raises for a response, if any. *)
Definition status_error (r : response) : option exn :=
  if (400 <=? status_code r) && (status_code r <? 500)
  then Some (HTTPError (str_of_nat (status_code r) ++ py " Client Error: "
                        ++ reason r ++ py " for url: " ++ resp_url r))
  else if (500 <=? status_code r) && (status_code r <? 600)
  then Some (HTTPError (str_of_nat (status_code r) ++ py " Server Error: "
                        ++ reason r ++ py " for url: " ++ resp_url r))
  else None.

(** The separator of the keywords, and the rouble sign U+20BD. *)
Definition comma : N := 44%N.
Definition rouble : N := 8381%N.

(** The keywords metadata gives no manufacturer: the tag is missing, its
    [content] is missing or empty, or every comma-separated token of it
    is blank. *)
Definition no_keyword_token (soup : tag) : Prop :=
  match find soup (py "meta") [(py "name", py "keywords")] with
  | None => True
  | Some meta =>
    match get meta (py "content") with
    | None => True
    | Some c => Forall (fun t => strip t = []) (split [comma] (strip c))
    end
  end.

(** The keys of a product record, in the order of the JSON output. *)
Definition record_keys : list string :=
  ["name"; "manufacturer"; "price"; "category"; "images"; "weight";
   "description"; "composition"; "analysis"; "feeding_norm"; "reviews";
   "url"; "parsed_date"]%string.

(** The tab container each text field is read from. *)
Definition tab_fields : list (string * selector) :=
  [("description", tab_des); ("composition", tab_composition);
   ("analysis", tab_analysis); ("feeding_norm", tab_feeding_rates)]%string.

Section Fetching.

Variable requests_get : pystr -> result response.
Variable html_parser : pystr -> result tag.

(** What the three fetching lines of [parse_product] yield for a URL:
    the parsed page, or the exception one of them raises. *)
Definition page_of (url : pystr) : result tag :=
  match requests_get url with
  | Ok r =>
    match status_error r with
    | Some e => Raise e
    | None => html_parser (resp_text r)
    end
  | Raise e => Raise e
  end.

(** The URL's page was fetched and parsed. *)
Definition page_ok (url : pystr) : bool :=
  match page_of url with
  | Ok _ => true
  | Raise _ => false
  end.

(** A record of the batch and the link it was assembled from. *)
Definition assembled_from (url : pystr) (record : dict) : Prop :=
  exists soup parsed_date,
    page_of url = Ok soup
    /\ record = product_record soup url (isoformat parsed_date).

End Fetching.

Definition add_log (w : world) (entries : list (level * pystr)) : world :=
  mkWorld (log w ++ entries) (writes w) (clock_reads w) (slept w).

(** The JSON document [save_to_json] dumps for a batch. *)
Definition json_of (batch : list dict) : pyval := PList (map PDict batch).

(** The name of the timestamped file for a clock reading. *)
Definition stamped_file (t : datetime) : pystr :=
  py "output/zoomagia_products_" ++ strftime_stamp t ++ py ".json".

(** The write events of one [save_to_json], in order, and the exception
    that ended the saving, if one did: the timestamped file is opened
    and dumped, then the latest file. *)
Definition save_outcome (open_w : pystr -> result unit)
           (json_dump : pystr -> pyval -> result unit)
           (stamped filename : pystr) (document : pyval)
  : list (pystr * file_content) * option exn :=
  match open_w stamped with
  | Raise e => ([], Some e)
  | Ok _ =>
    match json_dump stamped document with
    | Raise e => ([(stamped, Partial)], Some e)
    | Ok _ =>
      match open_w filename with
      | Raise e => ([(stamped, Dumped document)], Some e)
      | Ok _ =>
        match json_dump filename document with
        | Raise e => ([(stamped, Dumped document); (filename, Partial)], Some e)
        | Ok _ => ([(stamped, Dumped document); (filename, Dumped document)], None)
        end
      end
    end
  end.

(** What a file holds after a sequence of write events: what the last
    event for its name left in it. *)
Fixpoint file_of (events : list (pystr * file_content)) (name : pystr)
  : option file_content :=
  match events with
  | [] => None
  | (n, c) :: r =>
    match file_of r name with
    | Some c' => Some c'
    | None => if str_eqb n name then Some c else None
    end
  end.

(** What [update_node] answers, read off the search for the same test:
    nothing when no tag matches, the node itself when [f] leaves the
    contents of the first match alone. *)
Definition update_agrees (f : tag -> tag) (found : list tag)
           (updated original : option (list node)) : Prop :=
  match found with
  | [] => updated = None
  | t :: _ => contents (f t) = contents t -> updated = original
  end.

(** No tab container of the document holds a script or style tag. *)
Definition tabs_free_of_scripts (soup : tag) : Prop :=
  forall tab_id tab,
    In tab_id [tab_des; tab_composition; tab_analysis; tab_feeding_rates] ->
    select_one soup tab_id = Some tab ->
    select tab script_or_style = [].

(** Induction over a tree, with the property known for every child. *)
Fixpoint node_induction (P : node -> Prop)
         (HStr : forall k s, P (Str k s))
         (HTag : forall nm a cs, Forall P cs -> P (Tag nm a cs))
         (n : node) : P n :=
  match n with
  | Str k s => HStr k s
  | Tag nm a cs =>
    HTag nm a cs
         ((fix children (l : list node) : Forall P l :=
             match l with
             | [] => Forall_nil P
             | x :: r => Forall_cons x (node_induction P HStr HTag x) (children r)
             end) cs)
  end.

(* ================================================================== *)
(** ** Runs on the sample pages *)
(* ================================================================== *)

Example price_of_page_sale :
  _get_price page_sale
  = [("old_price", PStr (py "2000 ₽")); ("current_price", PStr (py "1500"));
     ("discount", PStr [])]%string.
Proof. reflexivity. Qed.

Example name_of_dashed_title : _get_name page_dashed_title = py "Cat food".
Proof. reflexivity. Qed.

Example name_of_plain_title : _get_name page_plain_title = py "Sale".
Proof. reflexivity. Qed.

(* ================================================================== *)
(** ** Facts about strings *)
(* ================================================================== *)

Section StringFacts.

Lemma str_eqb_eq (a b : pystr) : str_eqb a b = true <-> a = b.
Proof.
  revert b; induction a as [|x a IH]; intros [|y b]; simpl;
    try (split; [discriminate | congruence]).
  - tauto.
  - rewrite andb_true_iff, N.eqb_eq, IH. split.
    + intros [-> ->]; reflexivity.
    + intros H; injection H; auto.
Qed.

Lemma str_eqb_refl (a : pystr) : str_eqb a a = true.
Proof. apply str_eqb_eq; reflexivity. Qed.

Lemma str_eqb_neq (a b : pystr) : str_eqb a b = false <-> a <> b.
Proof.
  rewrite <- str_eqb_eq. destruct (str_eqb a b); split; congruence.
Qed.

Lemma str_in_In (x : pystr) (xs : list pystr) : str_in x xs = true <-> In x xs.
Proof.
  unfold str_in. rewrite existsb_exists. split.
  - intros [y [Hy E]]. apply str_eqb_eq in E. subst; assumption.
  - intros H. exists x. split; [assumption | apply str_eqb_refl].
Qed.

Lemma truthy_false (s : pystr) : truthy s = false <-> s = [].
Proof. destruct s; simpl; split; congruence. Qed.

Lemma truthy_true (s : pystr) : truthy s = true <-> s <> [].
Proof. destruct s; simpl; split; congruence. Qed.

(** [lstrip] leaves nothing or a string that starts with a non-space. *)
Lemma lstrip_head (s : pystr) :
  lstrip s = [] \/ exists c r, lstrip s = c :: r /\ isspace c = false.
Proof.
  induction s as [|c r IH]; simpl.
  - left; reflexivity.
  - destruct (isspace c) eqn:E; [exact IH|].
    right. exists c, r. split; [reflexivity | exact E].
Qed.

Lemma lstrip_fixed (c : N) (r : pystr) : isspace c = false -> lstrip (c :: r) = c :: r.
Proof. intros E. simpl. rewrite E. reflexivity. Qed.

Lemma lstrip_app_nonspace (a : pystr) (c : N) :
  isspace c = false ->
  lstrip (a ++ [c]) = lstrip a ++ [c].
Proof.
  intros E. induction a as [|x a IH]; simpl.
  - rewrite E. reflexivity.
  - destruct (isspace x); [exact IH | reflexivity].
Qed.

Lemma lstrip_app_space (a : pystr) (c : N) :
  isspace c = true ->
  lstrip (a ++ [c]) = match lstrip a with [] => [] | _ :: _ => lstrip a ++ [c] end.
Proof.
  intros E. induction a as [|x a IH]; simpl.
  - rewrite E. reflexivity.
  - destruct (isspace x); [exact IH | reflexivity].
Qed.

(** [rstrip] read from the front of the string. *)
Lemma rev_cons_nonempty (y : N) (l : pystr) : exists a b, rev (y :: l) = a :: b.
Proof.
  destruct (rev (y :: l)) as [|a b] eqn:R; [|eauto].
  apply (f_equal (@List.length N)) in R. rewrite length_rev in R. discriminate.
Qed.

Lemma rstrip_cons (c : N) (r : pystr) :
  rstrip (c :: r)
  = match rstrip r with
    | [] => if isspace c then [] else [c]
    | _ :: _ => c :: rstrip r
    end.
Proof.
  unfold rstrip. simpl rev.
  destruct (isspace c) eqn:E.
  - rewrite lstrip_app_space by exact E.
    destruct (lstrip (rev r)) as [|y l] eqn:L; [reflexivity|].
    destruct (rev_cons_nonempty y l) as [a [b R]].
    rewrite rev_app_distr, R. reflexivity.
  - rewrite lstrip_app_nonspace by exact E.
    destruct (lstrip (rev r)) as [|y l] eqn:L; [reflexivity|].
    destruct (rev_cons_nonempty y l) as [a [b R]].
    rewrite rev_app_distr, R. reflexivity.
Qed.

Lemma lstrip_head_ok (s : pystr) : head_ok (lstrip s) = true.
Proof.
  destruct (lstrip_head s) as [L | [c [r [L E]]]]; rewrite L; simpl;
    [reflexivity | rewrite E; reflexivity].
Qed.

Lemma head_ok_lstrip (s : pystr) : head_ok s = true -> lstrip s = s.
Proof.
  destruct s as [|c r]; [reflexivity|]. simpl. intros E.
  apply negb_true_iff in E. rewrite E. reflexivity.
Qed.

Lemma head_ok_app (s t : pystr) : s <> [] -> head_ok (s ++ t) = head_ok s.
Proof. destruct s; [congruence | reflexivity]. Qed.

Lemma rstrip_keeps_head (s : pystr) : head_ok s = true -> head_ok (rstrip s) = true.
Proof.
  destruct s as [|c r]; [reflexivity|]. simpl. intros E.
  rewrite rstrip_cons. apply negb_true_iff in E.
  destruct (rstrip r); [rewrite E|]; simpl; rewrite E; reflexivity.
Qed.

Lemma strip_ends_clean (s : pystr) : ends_clean (strip s) = true.
Proof.
  unfold ends_clean. apply andb_true_iff. split.
  - unfold strip. apply rstrip_keeps_head, lstrip_head_ok.
  - unfold strip, rstrip. rewrite rev_involutive. apply lstrip_head_ok.
Qed.

Lemma ends_clean_trimmed (s : pystr) : ends_clean s = true -> trimmed s.
Proof.
  unfold ends_clean, trimmed, strip, rstrip. rewrite andb_true_iff. intros [H1 H2].
  rewrite (head_ok_lstrip s H1), (head_ok_lstrip (rev s) H2).
  apply rev_involutive.
Qed.

Lemma strip_trimmed (s : pystr) : trimmed (strip s).
Proof. apply ends_clean_trimmed, strip_ends_clean. Qed.

Lemma trimmed_nil : trimmed [].
Proof. reflexivity. Qed.

Lemma rev_nonempty (s : pystr) : s <> [] -> rev s <> [].
Proof.
  intros H E. apply H. rewrite <- (rev_involutive s), E. reflexivity.
Qed.

(** A join of non-empty pieces with clean ends has clean ends. *)
Lemma join_ends_clean (sep : pystr) (ps : list pystr) :
  Forall (fun p => p <> [] /\ ends_clean p = true) ps ->
  ends_clean (join sep ps) = true /\ (ps <> [] -> join sep ps <> []).
Proof.
  induction 1 as [|p ps [Hne Hc] HF IH].
  - split; [reflexivity | intros H; exfalso; apply H; reflexivity].
  - destruct IH as [IH1 IH2].
    destruct ps as [|q ps].
    + simpl. split; [exact Hc | intros _; exact Hne].
    + assert (Hq : join sep (q :: ps) <> []) by (apply IH2; discriminate).
      change (join sep (p :: q :: ps)) with (p ++ sep ++ join sep (q :: ps)).
      unfold ends_clean in *.
      apply andb_true_iff in Hc. destruct Hc as [Hc1 Hc2].
      apply andb_true_iff in IH1. destruct IH1 as [IH1a IH1b].
      split.
      * apply andb_true_iff. split.
        -- rewrite head_ok_app by exact Hne. exact Hc1.
        -- rewrite !rev_app_distr, <- app_assoc.
           rewrite head_ok_app by (apply rev_nonempty; exact Hq).
           exact IH1b.
      * intros _ E. apply app_eq_nil in E. destruct E as [E _]. contradiction.
Qed.

Lemma join_stripped_trimmed (sep : pystr) (ss : list pystr) :
  trimmed (join sep (filter truthy (map strip ss))).
Proof.
  apply ends_clean_trimmed, join_ends_clean.
  apply Forall_forall. intros p Hp.
  apply filter_In in Hp. destruct Hp as [Hin Ht].
  apply in_map_iff in Hin. destruct Hin as [x [<- _]].
  split; [apply truthy_true; exact Ht | apply strip_ends_clean].
Qed.

End StringFacts.

Section SplitFacts.

Lemma contains_char (c : N) (s : pystr) : contains [c] s = true <-> In c s.
Proof.
  induction s as [|x r IH]; simpl.
  - split; [discriminate | tauto].
  - rewrite orb_true_iff, andb_true_iff, N.eqb_eq, IH.
    split.
    + intros [[E _] | H]; [left; symmetry; exact E | right; exact H].
    + intros [E | H]; [left; split; [symmetry; exact E | reflexivity] | right; exact H].
Qed.

(** For a one-character separator, [split(sep)[0]] is what precedes the
    first occurrence of the separator. *)
Lemma split_head_char (c : N) (p rest : pystr) :
  ~ In c p -> split_head [c] (p ++ c :: rest) = p.
Proof.
  unfold split_head. induction p as [|x p IH]; intros Hn.
  - simpl. rewrite N.eqb_refl. reflexivity.
  - simpl in *. destruct (N.eqb_spec c x) as [E | E].
    + exfalso. apply Hn. left. symmetry. exact E.
    + simpl. specialize (IH (fun H => Hn (or_intror H))).
      destruct (split_aux [c] 0 (p ++ c :: rest)) as [q qs].
      simpl in *. rewrite IH. reflexivity.
Qed.

End SplitFacts.

(* ================================================================== *)
(** ** Price ([_get_price]) *)
(* ================================================================== *)

Section Price.

(** C1, as stated, fails on a block that has no struck-through price:
    the page shows the block text " 1500 ₽ ", the specification's
    current price is "1500", and [_get_price] leaves [current_price]
    empty. *)
Lemma get_price_without_old_price :
  exists price_block,
    select_one page_no_old_price sel_price_block = Some price_block
    /\ select_one price_block sel_price_del = None
    /\ spec_current_price price_block = py "1500"
    /\ dict_get (_get_price page_no_old_price) "current_price" = Some (PStr [])
    /\ dict_get (_get_price page_no_old_price) "current_price"
       <> Some (PStr (spec_current_price price_block)).
Proof.
  eexists. split; [reflexivity|].
  split; [reflexivity|]. split; [reflexivity|]. split; [reflexivity|].
  vm_compute. discriminate.
Qed.

(** C1 (amended): when the pricing block is present, [old_price] is the
    trimmed text of the struck-through element if it exists;
    [current_price] is, if the struck-through element exists, the
    block's trimmed text with every occurrence of the trimmed old-price
    text and of the rouble sign removed, then trimmed, and is empty if
    the block has no struck-through element; [discount] is the trimmed
    text of the badge if it exists.  For a block with old price text
    "2000 ₽" and full text "2000 ₽1500 ₽" this gives "2000 ₽" and
    "1500". *)
Theorem get_price_of_block (soup price_block : tag) :
  select_one soup sel_price_block = Some price_block ->
  (forall o, select_one price_block sel_price_del = Some o ->
             dict_get (_get_price soup) "old_price" = Some (PStr (strip (text o)))
             /\ dict_get (_get_price soup) "current_price"
                = Some (PStr (strip (replace (py "₽") []
                                       (replace (strip (text o)) []
                                                (strip (text price_block)))))))
  /\ (select_one price_block sel_price_del = None ->
      dict_get (_get_price soup) "current_price" = Some (PStr []))
  /\ (forall d, select_one price_block sel_discount_badge = Some d ->
                dict_get (_get_price soup) "discount" = Some (PStr (strip (text d))))
  /\ (forall o, select_one price_block sel_price_del = Some o ->
                text o = py "2000 ₽" -> text price_block = py "2000 ₽1500 ₽" ->
                dict_get (_get_price soup) "old_price" = Some (PStr (py "2000 ₽"))
                /\ dict_get (_get_price soup) "current_price" = Some (PStr (py "1500"))).
Proof.
  intros Hb. unfold _get_price. rewrite Hb.
  split; [|split; [|split]].
  - intros o Ho. rewrite Ho.
    destruct (select_one price_block sel_discount_badge); split; reflexivity.
  - intros Ho. rewrite Ho.
    destruct (select_one price_block sel_discount_badge); reflexivity.
  - intros d Hd. rewrite Hd.
    destruct (select_one price_block sel_price_del); reflexivity.
  - intros o Ho Hold Hfull. rewrite Ho, Hold, Hfull.
    destruct (select_one price_block sel_discount_badge); split; reflexivity.
Qed.

Lemma get_price_of_block_witness :
  exists price_block o,
    select_one page_sale sel_price_block = Some price_block
    /\ select_one price_block sel_price_del = Some o
    /\ dict_get (_get_price page_sale) "old_price" = Some (PStr (py "2000 ₽"))
    /\ dict_get (_get_price page_sale) "current_price" = Some (PStr (py "1500")).
Proof.
  eexists. eexists. split; [reflexivity|]. split; [reflexivity|].
  refine (proj2 (proj2 (proj2 (get_price_of_block page_sale _ eq_refl))) _ eq_refl _ _);
    reflexivity.
Defined.

End Price.

(* ================================================================== *)
(** ** Name ([_get_name]) *)
(* ================================================================== *)

Section Name.

(** C2, as stated, fails on a page whose title has no dash: the title
    is present, its trimmed text is "Cat food", and the name is taken
    from the heading. *)
Lemma get_name_title_without_dash :
  exists title,
    find page_plain_title (py "title") [] = Some title
    /\ strip (split_head [dash] (strip (text title))) = py "Cat food"
    /\ _get_name page_plain_title = py "Sale"
    /\ _get_name page_plain_title <> strip (split_head [dash] (strip (text title))).
Proof.
  eexists. split; [reflexivity|]. split; [reflexivity|]. split; [reflexivity|].
  vm_compute. discriminate.
Qed.

(** C2 (amended): the name is the part of the title's trimmed text
    before its first dash, trimmed, whenever a title is present and its
    trimmed text contains a dash; when no title is present or the title
    has no dash, the name is the first h1 heading's trimmed text; and it
    is empty when, in that case, there is no h1 either. *)
Theorem get_name_cases (soup : tag) :
  (forall title p rest,
      find soup (py "title") [] = Some title ->
      strip (text title) = p ++ dash :: rest -> ~ In dash p ->
      _get_name soup = strip p)
  /\ (forall h1,
         no_dashed_title soup -> find soup (py "h1") [] = Some h1 ->
         _get_name soup = strip (text h1))
  /\ (no_dashed_title soup -> find soup (py "h1") [] = None ->
      _get_name soup = []).
Proof.
  unfold _get_name. change (py "–") with [dash].
  repeat split.
  - intros title p rest Ht Hs Hn. rewrite Ht.
    assert (Hc : contains [dash] (strip (text title)) = true).
    { apply contains_char. rewrite Hs. apply in_or_app. right. left. reflexivity. }
    rewrite Hc, Hs, split_head_char by exact Hn. reflexivity.
  - intros h1 [Ht | [title [Ht Hn]]] Hh; rewrite Ht, Hh; [reflexivity|].
    destruct (contains [dash] (strip (text title))) eqn:Hc; [|reflexivity].
    apply contains_char in Hc. contradiction.
  - intros [Ht | [title [Ht Hn]]] Hh; rewrite Ht, Hh; [reflexivity|].
    destruct (contains [dash] (strip (text title))) eqn:Hc; [|reflexivity].
    apply contains_char in Hc. contradiction.
Qed.

Lemma get_name_cases_witness :
  _get_name page_dashed_title = py "Cat food"
  /\ _get_name page_plain_title = py "Sale".
Proof.
  split.
  - refine (proj1 (get_name_cases page_dashed_title) _ (py "Cat food ") (py " Zoomagia")
                  eq_refl eq_refl _).
    vm_compute. intuition discriminate.
  - refine (proj1 (proj2 (get_name_cases page_plain_title)) _ _ eq_refl).
    right. eexists. split; [reflexivity|].
    vm_compute. intuition discriminate.
Defined.

End Name.

(* ================================================================== *)
(** ** Dictionaries and the normalization loop *)
(* ================================================================== *)

Section Normalization.

Lemma dict_get_set (d : dict) (k k' : string) (v : pyval) :
  dict_get (dict_set d k v) k'
  = if String.eqb k k' then Some v else dict_get d k'.
Proof.
  induction d as [|[k0 v0] r IH]; simpl.
  - reflexivity.
  - destruct (String.eqb_spec k0 k) as [E | E]; simpl.
    + subst k0. destruct (String.eqb k k'); reflexivity.
    + rewrite IH. destruct (String.eqb_spec k0 k') as [E' | E'];
        destruct (String.eqb_spec k k') as [E'' | E'']; try reflexivity.
      congruence.
Qed.

(** What the loop leaves under a key: [None] if some visited item with
    that key was blank. *)
Lemma fold_norm_get (items acc : dict) (k : string) :
  dict_get (fold_left norm_step items acc) k
  = if existsb (fun kv => String.eqb (fst kv) k && blank_str (snd kv)) items
    then Some PNone else dict_get acc k.
Proof.
  revert acc. induction items as [|[k0 v0] r IH]; intros acc; simpl.
  - reflexivity.
  - rewrite IH. unfold norm_step. simpl.
    destruct (existsb _ r); [rewrite orb_true_r; reflexivity|].
    rewrite orb_false_r.
    destruct (blank_str v0); [|rewrite andb_false_r; reflexivity].
    rewrite dict_get_set, andb_true_r. reflexivity.
Qed.

Lemma existsb_blank_unique (d : dict) (k : string) :
  NoDup (map fst d) ->
  existsb (fun kv => String.eqb (fst kv) k && blank_str (snd kv)) d
  = match dict_get d k with Some v => blank_str v | None => false end.
Proof.
  induction d as [|[k0 v0] r IH]; simpl; intros Hnd.
  - reflexivity.
  - inversion Hnd as [|? ? Hnotin Hnd']; subst.
    destruct (String.eqb_spec k0 k) as [E | E]; simpl.
    + subst k0. destruct (existsb _ r) eqn:Ex; [|apply orb_false_r].
      exfalso. apply Hnotin. apply existsb_exists in Ex.
      destruct Ex as [[k1 v1] [Hin Hk]]. simpl in Hk.
      apply andb_true_iff in Hk. destruct Hk as [Hk _].
      apply String.eqb_eq in Hk. subst k1.
      apply in_map_iff. exists (k, v1). split; [reflexivity | exact Hin].
    + apply IH. exact Hnd'.
Qed.

Lemma normalize_get (d : dict) (k : string) :
  NoDup (map fst d) ->
  dict_get (normalize d) k = option_map normalized (dict_get d k).
Proof.
  intros Hnd. unfold normalize.
  change (fold_left _ d d) with (fold_left norm_step d d).
  rewrite fold_norm_get, existsb_blank_unique by exact Hnd.
  unfold normalized. destruct (dict_get d k) as [v|]; simpl; [|reflexivity].
  destruct (blank_str v); reflexivity.
Qed.

Lemma product_fields_unfold (soup : tag) (url parsed_date : pystr) :
  product_fields soup url parsed_date
  = ([("name", PStr (_get_name soup));
      ("manufacturer", PStr (_get_manufacturer soup));
      ("price", PDict (_get_price soup));
      ("category", PStr (_get_category soup));
      ("images", PList (map PStr (_get_images soup)));
      ("weight", PList (map PStr (_get_weight soup)));
      ("description", PStr (fst (_get_tab_content soup tab_des)));
      ("composition", PStr (fst (_get_tab_content (after_des soup) tab_composition)));
      ("analysis", PStr (fst (_get_tab_content (after_composition soup) tab_analysis)));
      ("feeding_norm", PStr (fst (_get_tab_content (after_analysis soup) tab_feeding_rates)));
      ("reviews", PList (map PDict (_get_reviews (after_tabs soup))));
      ("url", PStr url);
      ("parsed_date", PStr parsed_date)]%string,
     after_tabs soup).
Proof.
  unfold product_fields, after_tabs, after_analysis, after_composition, after_des.
  destruct (_get_tab_content soup tab_des) as [d1 s1]. simpl.
  destruct (_get_tab_content s1 tab_composition) as [d2 s2]. simpl.
  destruct (_get_tab_content s2 tab_analysis) as [d3 s3]. simpl.
  destruct (_get_tab_content s3 tab_feeding_rates) as [d4 s4]. reflexivity.
Qed.

Lemma product_fields_keys (soup : tag) (url parsed_date : pystr) :
  NoDup (map fst (fst (product_fields soup url parsed_date))).
Proof.
  rewrite product_fields_unfold. simpl.
  repeat (constructor; [simpl; intuition discriminate|]). constructor.
Qed.

Lemma product_record_get (soup : tag) (url parsed_date : pystr) (k : string) :
  dict_get (product_record soup url parsed_date) k
  = option_map normalized (dict_get (fst (product_fields soup url parsed_date)) k).
Proof. apply normalize_get, product_fields_keys. Qed.

End Normalization.

(* ================================================================== *)
(** ** The string-valued fields *)
(* ================================================================== *)

Section StringFields.

Lemma get_name_trimmed (soup : tag) : trimmed (_get_name soup).
Proof.
  unfold _get_name.
  assert (H : trimmed match find soup (py "h1") [] with
                      | Some h1 => strip (text h1)
                      | None => []
                      end).
  { destruct (find soup (py "h1") []); [apply strip_trimmed | apply trimmed_nil]. }
  destruct (find soup (py "title") []) as [title|]; [|exact H].
  destruct (contains _ _); [apply strip_trimmed | exact H].
Qed.

Lemma last_in (A : Type) (l : list A) (d : A) : l <> [] -> In (last l d) l.
Proof.
  induction l as [|x l IH]; [congruence|]. intros _.
  destruct l as [|y l]; [left; reflexivity|].
  right. apply IH. discriminate.
Qed.

Lemma get_manufacturer_trimmed (soup : tag) : trimmed (_get_manufacturer soup).
Proof.
  unfold _get_manufacturer.
  assert (H : trimmed match select_one soup sel_brand_a with
                      | Some brand_link => strip (text brand_link)
                      | None => []
                      end).
  { destruct (select_one soup sel_brand_a); [apply strip_trimmed | apply trimmed_nil]. }
  destruct (find soup (py "meta") _) as [meta|]; [|exact H].
  destruct (get_truthy meta (py "content")) as [c|]; [|exact H].
  destruct (filter truthy (map strip (split (py ",") (strip c)))) as [|p ps] eqn:E;
    [exact H|].
  assert (Hin : In (last (p :: ps) []) (p :: ps)) by (apply last_in; discriminate).
  rewrite <- E in Hin at 2. apply filter_In in Hin. destruct Hin as [Hin _].
  apply in_map_iff in Hin. destruct Hin as [x [Hx _]].
  rewrite <- Hx. apply strip_trimmed.
Qed.

Lemma get_category_trimmed (soup : tag) : trimmed (_get_category soup).
Proof.
  unfold _get_category.
  destruct (2 <=? _); [|apply trimmed_nil].
  destruct (nth_error _ _) as [b|]; [|apply trimmed_nil].
  destruct (truthy (strip (text b))); [apply strip_trimmed | apply trimmed_nil].
Qed.

Lemma get_tab_content_trimmed (soup : tag) (tab_id : selector) :
  trimmed (fst (_get_tab_content soup tab_id)).
Proof.
  unfold _get_tab_content.
  destruct (select_one soup tab_id) as [tab|]; simpl; [|apply trimmed_nil].
  apply join_stripped_trimmed.
Qed.

Lemma extracted_fields_trimmed (soup : tag) (url parsed_date : pystr)
      (k : string) (s : pystr) :
  In k extracted_string_fields ->
  dict_get (fst (product_fields soup url parsed_date)) k = Some (PStr s) ->
  trimmed s.
Proof.
  rewrite product_fields_unfold. unfold extracted_string_fields.
  intros Hk. simpl in Hk.
  repeat (destruct Hk as [<- | Hk];
          [simpl; intros E; injection E as <-;
           auto using get_name_trimmed, get_manufacturer_trimmed,
                      get_category_trimmed, get_tab_content_trimmed|]).
  contradiction.
Qed.

End StringFields.

(* ================================================================== *)
(** ** Normalization of the record ([parse_product], after assembly) *)
(* ================================================================== *)

Section RecordNormalization.

(** C3, as stated, fails on the [url] field: the listing's link
    resolves to a URL that ends in a space, the server answers it, and
    the record keeps the URL as it was passed in, not trimmed. *)
Lemma url_field_not_trimmed :
  nth_error (product_links_of page_listing) 1 = Some url_with_space
  /\ fst (parse_product server_up (parser_of page_listing page_full) clock
                        url_with_space w0)
     = Ok (Some (product_record page_full url_with_space (isoformat (clock 0))))
  /\ dict_get (fst (product_fields page_full url_with_space (isoformat (clock 0))))
              "url" = Some (PStr url_with_space)
  /\ strip url_with_space <> []
  /\ dict_get (product_record page_full url_with_space (isoformat (clock 0))) "url"
     = Some (PStr url_with_space)
  /\ dict_get (product_record page_full url_with_space (isoformat (clock 0))) "url"
     <> Some (PStr (strip url_with_space)).
Proof.
  split; [reflexivity|]. split; [reflexivity|]. split; [reflexivity|].
  split; [vm_compute; discriminate|]. split; [vm_compute; reflexivity|].
  vm_compute. discriminate.
Qed.

(** The fields that are no strings pass the loop as assembled. *)
Lemma record_other_fields (soup : tag) (url parsed_date : pystr) :
  dict_get (product_record soup url parsed_date) "images"
  = Some (PList (map PStr (_get_images soup)))
  /\ dict_get (product_record soup url parsed_date) "weight"
     = Some (PList (map PStr (_get_weight soup)))
  /\ dict_get (product_record soup url parsed_date) "reviews"
     = Some (PList (map PDict (_get_reviews (after_tabs soup))))
  /\ dict_get (product_record soup url parsed_date) "price"
     = Some (PDict (_get_price soup)).
Proof.
  rewrite !product_record_get, product_fields_unfold. simpl.
  repeat split; reflexivity.
Qed.

(** C3 (amended): after assembly, a string-valued field whose value is
    empty or whitespace-only is replaced by [None]; a string-valued
    field with a non-whitespace character is kept exactly as it was
    assembled, which for the fields an extractor computes (name,
    manufacturer, category, description, composition, analysis,
    feeding_norm) is a trimmed string, while [url] is the URL as passed
    in; the list-valued fields (images, weight, reviews) and the nested
    price record, sub-fields included, are left as assembled. *)
Theorem normalization_of_record (soup : tag) (url parsed_date : pystr) :
  (forall k s,
      dict_get (fst (product_fields soup url parsed_date)) k = Some (PStr s) ->
      strip s = [] ->
      dict_get (product_record soup url parsed_date) k = Some PNone)
  /\ (forall k s,
         dict_get (fst (product_fields soup url parsed_date)) k = Some (PStr s) ->
         strip s <> [] ->
         dict_get (product_record soup url parsed_date) k = Some (PStr s)
         /\ (In k extracted_string_fields -> strip s = s))
  /\ dict_get (product_record soup url parsed_date) "url"
     = Some (if truthy (strip url) then PStr url else PNone)
  /\ dict_get (product_record soup url parsed_date) "images"
     = Some (PList (map PStr (_get_images soup)))
  /\ dict_get (product_record soup url parsed_date) "weight"
     = Some (PList (map PStr (_get_weight soup)))
  /\ dict_get (product_record soup url parsed_date) "reviews"
     = Some (PList (map PDict (_get_reviews (after_tabs soup))))
  /\ dict_get (product_record soup url parsed_date) "price"
     = Some (PDict (_get_price soup)).
Proof.
  split; [|split].
  - intros k s Hk Hs. rewrite product_record_get, Hk. simpl.
    unfold normalized, blank_str. rewrite Hs. reflexivity.
  - intros k s Hk Hs. split.
    + rewrite product_record_get, Hk. simpl.
      unfold normalized, blank_str.
      apply truthy_true in Hs. rewrite Hs. reflexivity.
    + intros Hin. exact (extracted_fields_trimmed soup url parsed_date k s Hin Hk).
  - split; [|apply record_other_fields].
    rewrite product_record_get, product_fields_unfold. simpl.
    unfold normalized, blank_str.
    destruct (truthy (strip url)); reflexivity.
Qed.

Lemma normalization_of_record_witness :
  dict_get (product_record page_full url_with_space (isoformat (clock 0))) "composition"
  = Some PNone
  /\ dict_get (product_record page_full url_with_space (isoformat (clock 0))) "category"
     = Some (PStr (py "Cats"))
  /\ strip (py "Cats") = py "Cats".
Proof.
  pose proof (normalization_of_record page_full url_with_space (isoformat (clock 0)))
    as [Hblank [Hkeep _]].
  split.
  - apply (Hblank "composition"%string []); reflexivity.
  - assert (Hs : strip (py "Cats") <> []) by (vm_compute; discriminate).
    destruct (Hkeep "category"%string (py "Cats") eq_refl Hs) as [H1 H2].
    split; [exact H1|]. apply H2. vm_compute. tauto.
Defined.

(** C9: on a document without the pricing block the record's price is
    the nested record with three empty strings, not [None]; inside an
    existing block, a missing struck-through element leaves [old_price]
    the empty string and a missing badge leaves [discount] the empty
    string. *)
Theorem price_defaults_kept (soup : tag) (url parsed_date : pystr) :
  (select_one soup sel_price_block = None ->
   dict_get (product_record soup url parsed_date) "price"
   = Some (PDict [("old_price", PStr []); ("current_price", PStr []);
                  ("discount", PStr [])]%string))
  /\ (forall price_block,
         select_one soup sel_price_block = Some price_block ->
         exists price,
           dict_get (product_record soup url parsed_date) "price" = Some (PDict price)
           /\ (select_one price_block sel_price_del = None ->
               dict_get price "old_price" = Some (PStr []))
           /\ (select_one price_block sel_discount_badge = None ->
               dict_get price "discount" = Some (PStr []))).
Proof.
  destruct (record_other_fields soup url parsed_date) as [_ [_ [_ Hp]]].
  rewrite Hp. split.
  - intros Hb. unfold _get_price. rewrite Hb. reflexivity.
  - intros price_block Hb. exists (_get_price soup). split; [reflexivity|].
    unfold _get_price. rewrite Hb. split.
    + intros Ho. rewrite Ho.
      destruct (select_one price_block sel_discount_badge); reflexivity.
    + intros Hd. rewrite Hd.
      destruct (select_one price_block sel_price_del); reflexivity.
Qed.

Lemma price_defaults_kept_witness :
  dict_get (product_record page_plain_title url_with_space (isoformat (clock 0))) "price"
  = Some (PDict [("old_price", PStr []); ("current_price", PStr []);
                 ("discount", PStr [])]%string).
Proof.
  apply (proj1 (price_defaults_kept page_plain_title url_with_space (isoformat (clock 0)))).
  reflexivity.
Defined.

End RecordNormalization.

(* ================================================================== *)
(** ** Loops that append to a list *)
(* ================================================================== *)

Section AppendLoops.

(** A loop whose every round appends [f x] to the accumulator builds the
    accumulator followed by the pieces in order. *)
Lemma fold_left_appends (A B : Type) (step : list B -> A -> list B)
      (f : A -> list B) (l : list A) (acc : list B) :
  (forall acc x, step acc x = acc ++ f x) ->
  fold_left step l acc = acc ++ flat_map f l.
Proof.
  intros Hstep. revert acc. induction l as [|x l IH]; intros acc; simpl.
  - rewrite app_nil_r. reflexivity.
  - rewrite IH, Hstep, <- app_assoc. reflexivity.
Qed.

End AppendLoops.

(* ================================================================== *)
(** ** Images ([_get_images]) *)
(* ================================================================== *)

Section Images.

Lemma get_images_unfold (soup : tag) :
  _get_images soup = fold_left add_image (select soup sel_thumbnails) (main_src soup).
Proof.
  unfold _get_images, main_src, src_of.
  destruct (select_one soup sel_big_image) as [m|]; reflexivity.
Qed.

Lemma filter_filter_absent (acc : list pystr) (s : pystr) (l : list pystr) :
  filter (fun y => negb (str_in y (acc ++ [s]))) l
  = filter (fun y => negb (str_in y acc)) (filter (fun y => negb (str_eqb s y)) l).
Proof.
  induction l as [|y l IH]; simpl; [reflexivity|].
  assert (E : str_in y (acc ++ [s]) = str_in y acc || str_eqb s y).
  { unfold str_in. rewrite existsb_app. simpl. rewrite orb_false_r.
    f_equal. destruct (str_eqb y s) eqn:E1.
    - apply str_eqb_eq in E1. subst. symmetry. apply str_eqb_refl.
    - destruct (str_eqb s y) eqn:E2; [|reflexivity].
      apply str_eqb_eq in E2. subst. rewrite str_eqb_refl in E1. discriminate. }
  rewrite E. destruct (str_eqb s y); simpl.
  - rewrite orb_true_r. simpl. exact IH.
  - rewrite orb_false_r. destruct (str_in y acc); simpl; [exact IH|].
    rewrite IH. reflexivity.
Qed.

Lemma filter_present (acc : list pystr) (s : pystr) (l : list pystr) :
  str_in s acc = true ->
  filter (fun y => negb (str_in y acc)) (filter (fun y => negb (str_eqb s y)) l)
  = filter (fun y => negb (str_in y acc)) l.
Proof.
  intros Hs. induction l as [|y l IH]; simpl; [reflexivity|].
  destruct (str_eqb s y) eqn:E; simpl.
  - apply str_eqb_eq in E. subst y. rewrite Hs. simpl. exact IH.
  - destruct (str_in y acc); simpl; [exact IH | rewrite IH; reflexivity].
Qed.

(** The thumbnail loop started from [acc] appends the first occurrences
    of the thumbnails' [src]s that are not in [acc]. *)
Lemma add_image_loop (thumbs : list tag) (acc : list pystr) :
  fold_left add_image thumbs acc
  = acc ++ filter (fun y => negb (str_in y acc))
                  (first_occurrences (flat_map src_of thumbs)).
Proof.
  revert acc. induction thumbs as [|img thumbs IH]; intros acc; simpl.
  - rewrite app_nil_r. reflexivity.
  - rewrite IH. unfold add_image, src_of.
    destruct (get_truthy img (py "src")) as [src|]; simpl; [|reflexivity].
    destruct (str_in src acc) eqn:Hin; simpl.
    + rewrite filter_present by exact Hin. reflexivity.
    + rewrite <- app_assoc. simpl. rewrite filter_filter_absent. reflexivity.
Qed.

Lemma first_occurrences_NoDup (l : list pystr) : NoDup (first_occurrences l).
Proof.
  induction l as [|x l IH]; simpl; constructor.
  - intros Hin. apply filter_In in Hin. destruct Hin as [_ Hx].
    rewrite str_eqb_refl in Hx. discriminate.
  - apply NoDup_filter. exact IH.
Qed.

Lemma first_occurrences_In (l : list pystr) (x : pystr) :
  In x (first_occurrences l) <-> In x l.
Proof.
  induction l as [|y l IH]; simpl; [tauto|].
  rewrite filter_In, IH. split.
  - intros [H | [H _]]; auto.
  - intros [H | H]; [left; exact H|].
    destruct (str_eqb y x) eqn:E.
    + left. apply str_eqb_eq. exact E.
    + right. split; [exact H | reflexivity].
Qed.

Lemma get_images_spec (soup : tag) :
  _get_images soup = first_occurrences (main_src soup ++ thumbnail_srcs soup).
Proof.
  rewrite get_images_unfold, add_image_loop. fold (thumbnail_srcs soup).
  unfold main_src, src_of.
  destruct (select_one soup sel_big_image) as [m|]; simpl;
    [destruct (get_truthy m (py "src")) as [s|]; simpl|].
  - f_equal. apply filter_ext. intros y. unfold str_in. simpl.
    rewrite orb_false_r. f_equal.
    destruct (str_eqb y s) eqn:E1.
    + apply str_eqb_eq in E1. subst. symmetry. apply str_eqb_refl.
    + destruct (str_eqb s y) eqn:E2; [|reflexivity].
      apply str_eqb_eq in E2. subst. rewrite str_eqb_refl in E1. discriminate.
  - induction (first_occurrences (thumbnail_srcs soup)) as [|y l IH];
      simpl; congruence.
  - induction (first_occurrences (thumbnail_srcs soup)) as [|y l IH];
      simpl; congruence.
Qed.

End Images.

Section ImagesClaim.

(** C4, as stated, fails when the big image carries an empty [src]: the
    element and its attribute are present, yet the list starts with the
    first thumbnail. *)
Lemma big_image_with_empty_src :
  exists main_image,
    select_one page_empty_src sel_big_image = Some main_image
    /\ get main_image (py "src") = Some []
    /\ _get_images page_empty_src = [py "/img/a.jpg"]
    /\ nth_error (_get_images page_empty_src) 0 <> Some [].
Proof.
  eexists. split; [reflexivity|]. split; [reflexivity|]. split; [reflexivity|].
  vm_compute. discriminate.
Qed.

(** C4 (amended): the images list holds no string twice; whenever the
    big-image element has a non-empty [src], that [src] is at index 0;
    the thumbnails' non-empty [src]s follow in document order, each at
    its first occurrence and only if it was not collected before. *)
Theorem get_images_unique_main_first (soup : tag) :
  NoDup (_get_images soup)
  /\ (forall main_image src,
         select_one soup sel_big_image = Some main_image ->
         get main_image (py "src") = Some src -> src <> [] ->
         nth_error (_get_images soup) 0 = Some src)
  /\ _get_images soup
     = main_src soup
       ++ filter (fun y => negb (str_in y (main_src soup)))
                 (first_occurrences (thumbnail_srcs soup))
  /\ (forall x, In x (_get_images soup)
                <-> In x (main_src soup) \/ In x (thumbnail_srcs soup)).
Proof.
  split; [|split; [|split]].
  - rewrite get_images_spec. apply first_occurrences_NoDup.
  - intros m src Hm Hs Hne. rewrite get_images_spec.
    unfold main_src, src_of, get_truthy. rewrite Hm, Hs.
    apply truthy_true in Hne. rewrite Hne. reflexivity.
  - rewrite get_images_unfold. apply add_image_loop.
  - intros x. rewrite get_images_spec, first_occurrences_In. apply in_app_iff.
Qed.

Lemma get_images_unique_main_first_witness :
  nth_error (_get_images page_full) 0 = Some (py "/img/a.jpg")
  /\ _get_images page_full = [py "/img/a.jpg"; py "/img/b.jpg"; py "/img/c.jpg"].
Proof.
  split; [|reflexivity].
  refine (proj1 (proj2 (get_images_unique_main_first page_full)) _ _ eq_refl eq_refl _).
  vm_compute. discriminate.
Defined.

End ImagesClaim.

(* ================================================================== *)
(** ** Product links ([get_product_links]) *)
(* ================================================================== *)

Section Links.

Lemma product_links_of_items (soup : tag) :
  product_links_of soup = flat_map item_url (select soup sel_grid_product).
Proof.
  unfold product_links_of.
  rewrite (fold_left_appends _ _ _ item_url); [reflexivity|].
  intros acc product. unfold item_url, full_url.
  destruct (select_one product sel_title_a) as [link|];
    [|rewrite app_nil_r; reflexivity].
  destruct (get_truthy link (py "href")); [reflexivity|].
  rewrite app_nil_r. reflexivity.
Qed.

Lemma raise_for_status_ok (r : response) (w : world) :
  ((status_code r <? 400) || (600 <=? status_code r)) = true ->
  raise_for_status r w = (Ok tt, w).
Proof.
  intros H. unfold raise_for_status.
  apply orb_true_iff in H. destruct H as [H | H].
  - apply Nat.ltb_lt in H.
    assert (E1 : (400 <=? status_code r) = false) by (apply Nat.leb_gt; exact H).
    assert (E2 : (500 <=? status_code r) = false) by (apply Nat.leb_gt; lia).
    rewrite E1, E2. reflexivity.
  - apply Nat.leb_le in H.
    assert (E1 : (status_code r <? 500) = false) by (apply Nat.ltb_ge; lia).
    assert (E2 : (status_code r <? 600) = false) by (apply Nat.ltb_ge; lia).
    rewrite E1, E2, !andb_false_r. reflexivity.
Qed.

Lemma get_product_links_fetched
      (requests_get : pystr -> result response)
      (html_parser : pystr -> result tag) (soup : tag) (w : world) :
  fetched requests_get html_parser sale_url soup ->
  fst (get_product_links requests_get html_parser w) = Ok (product_links_of soup).
Proof.
  intros [r [Hr [Hs Hp]]].
  unfold get_product_links, try_except, bind, lift, logging, ret.
  simpl. rewrite Hr. rewrite raise_for_status_ok by exact Hs.
  rewrite Hp. reflexivity.
Qed.

(** C5, as stated, fails on an item whose title holds two anchors, the
    first without [href]: the listing has one item, the item contains a
    title anchor with an [href], and no URL is returned. *)
Lemma first_anchor_without_href :
  List.length (select page_listing_two_anchors sel_grid_product) = 1
  /\ Forall (fun item =>
               exists link href,
                 In link (select item sel_title_a)
                 /\ get link (py "href") = Some href /\ href <> [])
            (select page_listing_two_anchors sel_grid_product)
  /\ fst (get_product_links server_up
            (parser_of page_listing_two_anchors page_full) w0) = Ok []
  /\ List.length (product_links_of page_listing_two_anchors) <> 1.
Proof.
  split; [reflexivity|]. split; [|split; [reflexivity | vm_compute; discriminate]].
  constructor; [|constructor].
  eexists. exists (py "/shop/a"). split; [right; left; reflexivity|].
  split; [reflexivity | vm_compute; discriminate].
Qed.

(** C5 (amended): for a listing page with N items, in each of which the
    first title anchor has a non-empty [href], link extraction returns
    exactly N URLs in the order of the items; an [href] that starts with
    "http" is kept as it is and any other is prefixed with the base
    origin. *)
Theorem get_product_links_one_per_item
        (requests_get : pystr -> result response)
        (html_parser : pystr -> result tag) (soup : tag) (w : world) :
  fetched requests_get html_parser sale_url soup ->
  Forall (fun item =>
            exists link href,
              select_one item sel_title_a = Some link
              /\ get link (py "href") = Some href /\ href <> [])
         (select soup sel_grid_product) ->
  exists links,
    fst (get_product_links requests_get html_parser w) = Ok links
    /\ List.length links = List.length (select soup sel_grid_product)
    /\ Forall2 (fun item url =>
                  exists link href,
                    select_one item sel_title_a = Some link
                    /\ get link (py "href") = Some href
                    /\ url = (if startswith (py "http") href then href
                              else base_url ++ href))
               (select soup sel_grid_product) links.
Proof.
  intros Hf Hitems. exists (product_links_of soup).
  split; [apply get_product_links_fetched; exact Hf|].
  rewrite product_links_of_items.
  induction Hitems as [|item items [link [href [Hl [Hh Hne]]]] _ IH]; simpl.
  - split; [reflexivity | constructor].
  - destruct IH as [IHlen IHall].
    assert (E : item_url item = [full_url href]).
    { unfold item_url, get_truthy. rewrite Hl, Hh.
      apply truthy_true in Hne. rewrite Hne. reflexivity. }
    rewrite E. simpl. split; [f_equal; exact IHlen|].
    constructor; [|exact IHall].
    exists link, href. repeat split; assumption.
Qed.

Lemma get_product_links_one_per_item_witness :
  exists links,
    fst (get_product_links server_up (parser_of page_listing page_full) w0) = Ok links
    /\ List.length links = 2
    /\ links = [py "https://zoomagia.ru/shop/a"; py "https://zoomagia.ru/shop/b "].
Proof.
  assert (Hf : fetched server_up (parser_of page_listing page_full) sale_url page_listing).
  { eexists. split; [reflexivity|]. split; reflexivity. }
  assert (Hi : Forall (fun item =>
                         exists link href,
                           select_one item sel_title_a = Some link
                           /\ get link (py "href") = Some href /\ href <> [])
                      (select page_listing sel_grid_product)).
  { repeat constructor;
      (eexists; eexists; split; [reflexivity|]; split;
       [reflexivity | vm_compute; discriminate]). }
  destruct (get_product_links_one_per_item server_up (parser_of page_listing page_full)
              page_listing w0 Hf Hi) as [links [H1 [H2 _]]].
  exists links. split; [exact H1|]. split; [exact H2|].
  vm_compute in H1. injection H1 as <-. reflexivity.
Defined.

End Links.

(* ================================================================== *)
(** ** Reviews and weights ([_get_reviews], [_get_weight]) *)
(* ================================================================== *)

Section Reviews.

Lemma get_reviews_map (soup : tag) :
  _get_reviews soup = map review_of (select soup sel_comments).
Proof.
  unfold _get_reviews.
  rewrite (fold_left_appends _ _ _ (fun item => [review_of item]));
    [|reflexivity].
  simpl. induction (select soup sel_comments) as [|x l IH]; simpl; congruence.
Qed.

Lemma get_weight_filter (soup : tag) :
  _get_weight soup
  = filter truthy (map (fun item => strip (text item)) (select soup sel_packing)).
Proof.
  unfold _get_weight.
  rewrite (fold_left_appends _ _ _
             (fun item => if truthy (strip (text item)) then [strip (text item)] else [])).
  - simpl. induction (select soup sel_packing) as [|x l IH]; simpl; [reflexivity|].
    destruct (truthy (strip (text x))); simpl; congruence.
  - intros acc item. destruct (truthy (strip (text item)));
      [reflexivity | rewrite app_nil_r; reflexivity].
Qed.

Lemma join_empty_sep (ps : list pystr) : join [] ps = List.concat ps.
Proof.
  induction ps as [|p ps IH]; [reflexivity|].
  destruct ps as [|q ps]; [simpl; rewrite app_nil_r; reflexivity|].
  change (join [] (p :: q :: ps)) with (p ++ [] ++ join [] (q :: ps)).
  rewrite IH. reflexivity.
Qed.

(** C10, as stated, fails on an item with inline markup: its trimmed
    visible text is "Good food", the review's text is "Goodfood". *)
Lemma review_text_joins_fragments :
  exists item,
    nth_error (select page_full sel_comments) 2 = Some item
    /\ strip (text item) = py "Good food"
    /\ nth_error (_get_reviews page_full) 2
       = Some [("text"%string, PStr (py "Goodfood"))]
    /\ nth_error (_get_reviews page_full) 2
       <> Some [("text"%string, PStr (strip (text item)))].
Proof.
  eexists. split; [reflexivity|]. split; [reflexivity|]. split; [reflexivity|].
  vm_compute. discriminate.
Qed.

(** C10 (amended): the reviews list holds one record per item of the
    comments list, in document order, each with the single field [text]
    holding the item's text fragments, each trimmed, the empty ones left
    out, joined with nothing between them (the item's trimmed text when
    the item consists of one fragment); items whose text is empty are
    kept, so a record with an empty text can appear, whereas the weight
    extractor drops the items whose trimmed text is empty. *)
Theorem get_reviews_one_per_item (soup : tag) :
  _get_reviews soup
  = map (fun item =>
           [("text"%string,
             PStr (List.concat (filter truthy (map strip (strings item)))))])
        (select soup sel_comments)
  /\ List.length (_get_reviews soup) = List.length (select soup sel_comments)
  /\ (forall item s, strings item = [s] -> get_text_strip [] item = strip (text item))
  /\ (exists page, In [("text"%string, PStr [])] (_get_reviews page))
  /\ _get_weight soup
     = filter truthy (map (fun item => strip (text item)) (select soup sel_packing))
  /\ ~ In [] (_get_weight soup).
Proof.
  split; [|split; [|split; [|split; [|split]]]].
  - rewrite get_reviews_map. apply map_ext. intros item.
    unfold review_of, get_text_strip, stripped_strings.
    rewrite join_empty_sep. reflexivity.
  - rewrite get_reviews_map. apply length_map.
  - intros item s Hs. unfold get_text_strip, stripped_strings, text.
    rewrite Hs. simpl. rewrite app_nil_r.
    destruct (strip s); reflexivity.
  - exists page_full. right. left. reflexivity.
  - apply get_weight_filter.
  - rewrite get_weight_filter. intros Hin.
    apply filter_In in Hin. destruct Hin as [_ H]. discriminate.
Qed.

Example reviews_of_page_full :
  _get_reviews page_full
  = [[("text"%string, PStr (py "Great"))]; [("text"%string, PStr [])];
     [("text"%string, PStr (py "Goodfood"))]]
  /\ _get_weight page_full = [py "1 kg"; py "5 kg"].
Proof. split; reflexivity. Qed.

End Reviews.

(* ================================================================== *)
(** ** One product and the batch ([parse_product], [run_parser]) *)
(* ================================================================== *)

Section Batch.

Variable requests_get : pystr -> result response.
Variable html_parser : pystr -> result tag.
Variable now : nat -> datetime.
Variable open_w : pystr -> result unit.

Lemma last_two (A : Type) (l : list A) (a b d : A) : last (l ++ [a; b]) d = b.
Proof.
  change (l ++ [a; b]) with (l ++ [a] ++ [b]).
  rewrite app_assoc. apply last_last.
Qed.

Lemma raise_for_status_spec (r : response) (w : world) :
  raise_for_status r w
  = (match status_error r with Some e => Raise e | None => Ok tt end, w).
Proof.
  unfold raise_for_status, status_error.
  destruct ((400 <=? status_code r) && (status_code r <? 500)); [reflexivity|].
  destruct ((500 <=? status_code r) && (status_code r <? 600)); reflexivity.
Qed.

Lemma parse_product_spec (url : pystr) (w : world) :
  parse_product requests_get html_parser now url w
  = match page_of requests_get html_parser url with
    | Ok soup =>
      (Ok (Some (product_record soup url (isoformat (now (clock_reads w))))),
       mkWorld (log w ++ [(INFO, py "Parsing product: " ++ url)]) (writes w)
               (S (clock_reads w)) (slept w))
    | Raise e =>
      (Ok None,
       add_log w [(INFO, py "Parsing product: " ++ url);
                  (ERROR, py "Error parsing product " ++ url ++ py ": "
                          ++ str_exn e)])
    end.
Proof.
  unfold parse_product, page_of, try_except, bind, lift, logging, ret,
    datetime_now, add_log.
  cbn [fst snd log writes clock_reads slept].
  destruct (requests_get url) as [r | e].
  - rewrite raise_for_status_spec.
    destruct (status_error r) as [e|].
    + cbn. rewrite <- app_assoc. reflexivity.
    + destruct (html_parser (resp_text r)) as [soup | e]; cbn.
      * reflexivity.
      * rewrite <- app_assoc. reflexivity.
  - cbn. rewrite <- app_assoc. reflexivity.
Qed.

Lemma product_record_nonempty (soup : tag) (url parsed_date : pystr) :
  dict_truthy (Some (product_record soup url parsed_date)) = true.
Proof.
  pose proof (product_record_get soup url parsed_date "url") as H.
  rewrite product_fields_unfold in H. simpl in H.
  destruct (product_record soup url parsed_date); [discriminate | reflexivity].
Qed.

(** The loop never raises, writes no file, and appends to the batch the
    records of the links whose page could be fetched, in order. *)
Lemma process_links_spec (links : list pystr) :
  forall (total i : nat) (acc : list dict) (w : world),
  exists new w',
    process_links requests_get html_parser now total i links acc w
    = (Ok (acc ++ new), w')
    /\ writes w' = writes w
    /\ Forall2 (assembled_from requests_get html_parser) (filter (page_ok requests_get html_parser) links) new.
Proof.
  induction links as [|link rest IH]; intros total i acc w.
  - exists [], w. cbn. rewrite app_nil_r. repeat split. constructor.
  - cbn [process_links]. unfold bind at 1. unfold logging at 1.
    unfold bind at 1. rewrite parse_product_spec.
    cbn [filter]. unfold page_ok at 1.
    destruct (page_of requests_get html_parser link) as [soup | e] eqn:Hp.
    + rewrite product_record_nonempty.
      unfold bind at 1. unfold time_sleep at 1.
      match goal with
      | |- context [process_links _ _ _ total (S i) rest ?a ?w1] =>
        destruct (IH total (S i) a w1) as [new [w' [Hrun [Hw HF]]]]
      end.
      exists (product_record soup link (isoformat (now (clock_reads w))) :: new), w'.
      rewrite Hrun, <- app_assoc. split; [reflexivity|].
      split; [exact Hw|].
      constructor; [|exact HF].
      exists soup, (now (clock_reads w)). split; [exact Hp | reflexivity].
    + unfold bind at 1. unfold time_sleep at 1.
      match goal with
      | |- context [process_links _ _ _ total (S i) rest ?a ?w1] =>
        destruct (IH total (S i) a w1) as [new [w' [Hrun [Hw HF]]]]
      end.
      exists new, w'. rewrite Hrun. repeat split; assumption.
Qed.

(** C7: [parse_product] returns for every URL and never raises; when a
    fetching step raises, the result is [None] (and an error naming the
    URL is the last log entry), when none does, it is the record of the
    page; a failing link leaves the accumulated batch as it was and the
    loop goes on with the remaining links; the batch the loop returns
    is, in listing order, the records of exactly the links that could
    be fetched. *)
Theorem failures_dropped_batch_in_order
        (url : pystr) (links : list pystr) (total i : nat)
        (acc : list dict) (w : world) :
  (exists r w',
      parse_product requests_get html_parser now url w = (Ok r, w')
      /\ writes w' = writes w
      /\ (forall e, page_of requests_get html_parser url = Raise e ->
                    r = None
                    /\ last (log w') (INFO, [])
                       = (ERROR, py "Error parsing product " ++ url ++ py ": "
                                 ++ str_exn e))
      /\ (forall soup, page_of requests_get html_parser url = Ok soup ->
                       r = Some (product_record soup url
                                   (isoformat (now (clock_reads w))))))
  /\ (forall e, page_of requests_get html_parser url = Raise e ->
                exists w',
                  process_links requests_get html_parser now total i
                                (url :: links) acc w
                  = process_links requests_get html_parser now total (S i)
                                  links acc w'
                  /\ writes w' = writes w /\ clock_reads w' = clock_reads w)
  /\ (exists batch w',
         process_links requests_get html_parser now total i links [] w
         = (Ok batch, w')
         /\ Forall2 (assembled_from requests_get html_parser) (filter (page_ok requests_get html_parser) links) batch).
Proof.
  split; [|split].
  - rewrite parse_product_spec.
    destruct (page_of requests_get html_parser url) as [soup | e]; eexists; eexists;
      (split; [reflexivity|]); (split; [reflexivity|]); split.
    + intros e H. discriminate.
    + intros soup' H. injection H as <-. reflexivity.
    + intros e' H. injection H as <-. split; [reflexivity|].
      unfold add_log. cbn [log]. apply last_two.
    + intros soup H. discriminate.
  - intros e He.
    cbn [process_links]. unfold bind at 1. unfold logging at 1.
    unfold bind at 1. rewrite parse_product_spec, He.
    unfold bind at 1. unfold time_sleep at 1.
    eexists. split; [reflexivity|]. split; reflexivity.
  - destruct (process_links_spec links total i [] w) as [new [w' [Hrun [_ HF]]]].
    exists new, w'. split; assumption.
Qed.

End Batch.

(* ================================================================== *)
(** ** Persisting the batch ([save_to_json], [run_parser]) *)
(* ================================================================== *)

Section Persist.

Variable requests_get : pystr -> result response.
Variable html_parser : pystr -> result tag.
Variable now : nat -> datetime.
Variable open_w : pystr -> result unit.
Variable json_dump : pystr -> pyval -> result unit.


(** [save_to_json] never raises; it reads the clock once, leaves the
    write events of [save_outcome] and one log line: the error of the
    first [open] or [json.dump] that raised, or the success message. *)
Lemma save_to_json_spec (data : list dict) (filename : pystr) (w : world) :
  save_to_json now open_w json_dump data filename w
  = (Ok tt,
     mkWorld
       (log w
        ++ [match snd (save_outcome open_w json_dump
                         (stamped_file (now (clock_reads w))) filename
                         (json_of data)) with
            | Some e => (ERROR, py "Error saving data to JSON: " ++ str_exn e)
            | None => (INFO, py "Data successfully saved to " ++ filename
                             ++ py " and " ++ stamped_file (now (clock_reads w)))
            end])
       (writes w
        ++ fst (save_outcome open_w json_dump
                  (stamped_file (now (clock_reads w))) filename (json_of data)))
       (S (clock_reads w)) (slept w)).
Proof.
  unfold save_to_json, try_except, bind, datetime_now, write_json, logging,
    save_outcome, stamped_file, json_of.
  cbn [fst snd log writes clock_reads slept].
  destruct (open_w _) as [[]|e];
    [|cbn [fst snd]; rewrite app_nil_r; reflexivity].
  destruct (json_dump _ _) as [[]|e]; [|reflexivity].
  cbn [fst snd log writes clock_reads slept].
  destruct (open_w filename) as [[]|e]; [|reflexivity].
  destruct (json_dump filename _) as [[]|e];
    cbn [fst snd log writes clock_reads slept];
    rewrite <- app_assoc; reflexivity.
Qed.



End Persist.



(* ================================================================== *)
(** ** The document under [decompose] *)
(* ================================================================== *)

Section Trees.

Variable p : list header -> pystr -> attrs -> bool.

(** Decomposing the matching tags below a node that has none changes
    nothing. *)
Lemma remove_node_nothing (n : node) :
  forall ctx, search p ctx n = [] -> remove_node p ctx n = [n].
Proof.
  induction n as [k s | nm a cs IH] using node_induction; intros ctx H.
  - reflexivity.
  - simpl in *. destruct (p ctx nm a); [discriminate|].
    simpl in H. f_equal. f_equal.
    induction IH as [|x r Hx _ IHr]; [reflexivity|].
    simpl in *. apply app_eq_nil in H. destruct H as [H1 H2].
    rewrite (Hx _ H1), (IHr H2). reflexivity.
Qed.

Lemma remove_nodes_nothing (cs : list node) (ctx : list header) :
  flat_map (search p ctx) cs = [] -> flat_map (remove_node p ctx) cs = cs.
Proof.
  induction cs as [|x r IH]; [reflexivity|]. simpl. intros H.
  apply app_eq_nil in H. destruct H as [H1 H2].
  rewrite (remove_node_nothing x ctx H1), (IH H2). reflexivity.
Qed.

Variable f : tag -> tag.

Lemma update_node_fixed (n : node) :
  forall ctx,
    update_agrees f (search p ctx n)
                  (option_map (fun x => [x]) (update_node p f ctx n)) (Some [n]).
Proof.
  induction n as [k s | nm a cs IH] using node_induction; intros ctx.
  - reflexivity.
  - simpl. destruct (p ctx nm a) eqn:Hp.
    + simpl. intros E. simpl in E. rewrite E. reflexivity.
    + simpl.
      assert (H : update_agrees f
                    (flat_map (search p (mkHeader nm a :: ctx)) cs)
                    (update_first (update_node p f (mkHeader nm a :: ctx)) cs)
                    (Some cs)).
      { induction IH as [|x r Hx _ IHr]; [reflexivity|].
        simpl. specialize (Hx (mkHeader nm a :: ctx)).
        unfold update_agrees in *.
        destruct (search p (mkHeader nm a :: ctx) x) as [|t ts].
        - simpl. destruct (update_node p f (mkHeader nm a :: ctx) x);
            [discriminate|].
          destruct (flat_map (search p (mkHeader nm a :: ctx)) r).
          + rewrite IHr. reflexivity.
          + intros E. rewrite (IHr E). reflexivity.
        - simpl. intros E. specialize (Hx E).
          destruct (update_node p f (mkHeader nm a :: ctx) x); [|discriminate].
          simpl in Hx. injection Hx as ->. reflexivity. }
      unfold update_agrees in *.
      destruct (flat_map (search p (mkHeader nm a :: ctx)) cs).
      * rewrite H. reflexivity.
      * intros E. rewrite (H E). reflexivity.
Qed.

Lemma update_first_fixed (cs : list node) (ctx : list header) :
  update_agrees f (flat_map (search p ctx) cs)
                (update_first (update_node p f ctx) cs) (Some cs).
Proof.
  induction cs as [|x r IH]; [reflexivity|].
  simpl. pose proof (update_node_fixed x ctx) as Hx.
  unfold update_agrees in *.
  destruct (search p ctx x) as [|t ts].
  - simpl. destruct (update_node p f ctx x); [discriminate|].
    destruct (flat_map (search p ctx) r).
    + rewrite IH. reflexivity.
    + intros E. rewrite (IH E). reflexivity.
  - simpl. intros E. specialize (Hx E).
    destruct (update_node p f ctx x); [|discriminate].
    simpl in Hx. injection Hx as ->. reflexivity.
Qed.

(** The document is the same object with the same contents when [f]
    leaves the first match alone (or nothing matches). *)
Lemma update_within_fixed (t : tag) :
  match hd_error (descendants_matching p t) with
  | Some x => contents (f x) = contents x
  | None => True
  end ->
  update_within p f t = t.
Proof.
  unfold update_within, descendants_matching.
  pose proof (update_first_fixed (contents t) (header_of t :: parents t)) as H.
  unfold update_agrees in H.
  destruct (flat_map (search p (header_of t :: parents t)) (contents t)) as [|x xs];
    simpl; intros E.
  - rewrite H. reflexivity.
  - rewrite (H E). destruct t; reflexivity.
Qed.

End Trees.

(* ================================================================== *)
(** ** Running the extractors twice *)
(* ================================================================== *)

Section Rerun.

Lemma get_tab_content_keeps_document (soup : tag) (tab_id : selector) :
  (forall tab, select_one soup tab_id = Some tab -> select tab script_or_style = []) ->
  snd (_get_tab_content soup tab_id) = soup.
Proof.
  intros H. unfold _get_tab_content.
  destruct (select_one soup tab_id) as [tab|] eqn:Hs; [|reflexivity].
  simpl. apply update_within_fixed.
  unfold select_one, select in Hs. rewrite Hs.
  unfold decompose_all. simpl.
  apply remove_nodes_nothing. exact (H tab eq_refl).
Qed.

Lemma after_tabs_fixed (soup : tag) : tabs_free_of_scripts soup -> after_tabs soup = soup.
Proof.
  intros H.
  assert (H1 : after_des soup = soup).
  { apply get_tab_content_keeps_document. intros tab. apply H. simpl; tauto. }
  assert (H2 : after_composition soup = soup).
  { unfold after_composition. rewrite H1.
    apply get_tab_content_keeps_document. intros tab. apply H. simpl; tauto. }
  assert (H3 : after_analysis soup = soup).
  { unfold after_analysis. rewrite H2.
    apply get_tab_content_keeps_document. intros tab. apply H. simpl; tauto. }
  unfold after_tabs. rewrite H3.
  apply get_tab_content_keeps_document. intros tab. apply H. simpl; tauto.
Qed.

(** C8, as stated, fails when the extractors run a second time over the
    same parsed document: the first run decomposes the script inside
    the description tab, and with it the tag the image extractor had
    read, so the two records differ in [images]. *)
Lemma second_run_sees_decomposed_document :
  snd (product_fields page_script_in_tab (py "u") (isoformat (clock 0)))
  = after_tabs page_script_in_tab
  /\ dict_get (product_record page_script_in_tab (py "u") (isoformat (clock 0)))
              "images"
     = Some (PList [PStr (py "/js/zoom.js")])
  /\ dict_get (product_record (after_tabs page_script_in_tab) (py "u")
                              (isoformat (clock 1)))
              "images"
     = Some (PList [])
  /\ dict_get (product_record page_script_in_tab (py "u") (isoformat (clock 0)))
              "images"
     <> dict_get (product_record (after_tabs page_script_in_tab) (py "u")
                                 (isoformat (clock 1)))
                 "images".
Proof.
  split; [reflexivity|]. split; [reflexivity|]. split; [reflexivity|].
  vm_compute. discriminate.
Qed.

(** C8 (amended): over one parsed document the record is a function of
    the document and the URL: two extractions from the same document
    value, as [parse_product] obtains it by parsing the page afresh on
    every call, agree in every field except [parsed_date].  The
    extractors leave behind the document with the script and style tags
    of its tab containers decomposed; when no tab container holds such
    a tag the document is left as it was, and a second run over the
    same object agrees with the first in every field except
    [parsed_date]. *)
Theorem extraction_deterministic (soup : tag) (url d1 d2 : pystr) :
  (forall k, k <> "parsed_date"%string ->
             dict_get (product_record soup url d1) k
             = dict_get (product_record soup url d2) k)
  /\ snd (product_fields soup url d1) = after_tabs soup
  /\ (tabs_free_of_scripts soup ->
      snd (product_fields soup url d1) = soup
      /\ forall k, k <> "parsed_date"%string ->
                   dict_get (product_record soup url d1) k
                   = dict_get (product_record (snd (product_fields soup url d1))
                                              url d2) k).
Proof.
  assert (Hsame : forall k, k <> "parsed_date"%string ->
             dict_get (product_record soup url d1) k
             = dict_get (product_record soup url d2) k).
  { intros k Hk. rewrite !product_record_get, !product_fields_unfold.
    f_equal. cbn [fst dict_get].
    repeat (destruct (String.eqb _ k); [reflexivity|]).
    destruct (String.eqb_spec "parsed_date" k) as [E | E]; [|reflexivity].
    exfalso. apply Hk. symmetry. exact E. }
  split; [exact Hsame|]. split.
  - rewrite product_fields_unfold. reflexivity.
  - intros Hfree. rewrite product_fields_unfold. cbn [snd].
    rewrite (after_tabs_fixed soup Hfree). split; [reflexivity | exact Hsame].
Qed.

Lemma extraction_deterministic_witness :
  snd (product_fields page_plain_tab url_with_space (isoformat (clock 0)))
  = page_plain_tab
  /\ dict_get (product_record page_plain_tab url_with_space (isoformat (clock 0)))
              "description"
     = dict_get (product_record
                   (snd (product_fields page_plain_tab url_with_space
                                        (isoformat (clock 0))))
                   url_with_space (isoformat (clock 1))) "description"
  /\ dict_get (product_record page_plain_tab url_with_space (isoformat (clock 0)))
              "description"
     = Some (PStr (py "Tasty" ++ newline ++ py "food")).
Proof.
  assert (Hfree : tabs_free_of_scripts page_plain_tab).
  { intros tab_id tab Hin Hs. simpl in Hin.
    destruct Hin as [<- | [<- | [<- | [<- | []]]]]; vm_compute in Hs;
      try discriminate.
    injection Hs as <-. reflexivity. }
  destruct (proj2 (proj2 (extraction_deterministic page_plain_tab url_with_space
                            (isoformat (clock 0)) (isoformat (clock 1)))) Hfree)
    as [H1 H2].
  split; [exact H1|]. split; [apply H2; discriminate | reflexivity].
Defined.

End Rerun.

(* ================================================================== *)
(** ** Runs of the string methods and of the whole parser *)
(* ================================================================== *)

Section Runs.

Example py_rouble : py "2000 ₽" = [50; 48; 48; 48; 32; 8381]%N.
Proof. reflexivity. Qed.

Example py_dash : py "–" = [dash].
Proof. reflexivity. Qed.

Example strip_tabs_and_spaces : strip (9 :: py "  a b " ++ newline)%N = py "a b".
Proof. reflexivity. Qed.

Example strip_no_break_space : strip ([160] ++ py "1500" ++ [8239])%N = py "1500".
Proof. reflexivity. Qed.

Example split_commas :
  split (py ",") (py "a,b,,c") = [py "a"; py "b"; []; py "c"].
Proof. reflexivity. Qed.

Example split_long_separator :
  split (py "ab") (py "xabyabab") = [py "x"; py "y"; []; []].
Proof. reflexivity. Qed.

Example replace_all_occurrences :
  replace (py "aa") [] (py "aaaxaa.") = py "ax.".
Proof. reflexivity. Qed.

Example replace_empty_old : replace [] (py "-") (py "abc") = py "-a-b-c-".
Proof. reflexivity. Qed.

Example words_of_class : words (py " gallery  big ") = [py "gallery"; py "big"].
Proof. reflexivity. Qed.

Example isoformat_of_clock :
  isoformat (clock 3) = py "2024-01-15T10:30:03"
  /\ isoformat (mkDatetime 2024 1 15 10 30 3 250) = py "2024-01-15T10:30:03.000250"
  /\ strftime_stamp (clock 3) = py "20240115_103003".
Proof. repeat split; reflexivity. Qed.

Example record_of_page_full :
  product_record page_full (py "https://zoomagia.ru/shop/a") (isoformat (clock 0))
  = [("name", PStr (py "Cat food"));
     ("manufacturer", PStr (py "Acme"));
     ("price", PDict [("old_price", PStr (py "2000 ₽"));
                      ("current_price", PStr (py "1500  -25%"));
                      ("discount", PStr (py "-25%"))]);
     ("category", PStr (py "Cats"));
     ("images", PList [PStr (py "/img/a.jpg"); PStr (py "/img/b.jpg");
                       PStr (py "/img/c.jpg")]);
     ("weight", PList [PStr (py "1 kg"); PStr (py "5 kg")]);
     ("description", PStr (py "Tasty" ++ newline ++ py "food")%list);
     ("composition", PNone);
     ("analysis", PNone);
     ("feeding_norm", PNone);
     ("reviews", PList [PDict [("text", PStr (py "Great"))];
                        PDict [("text", PStr [])];
                        PDict [("text", PStr (py "Goodfood"))]]);
     ("url", PStr (py "https://zoomagia.ru/shop/a"));
     ("parsed_date", PStr (py "2024-01-15T10:30:00"))]%string.
Proof. reflexivity. Qed.

(** Two products on the listing, the second one times out: the batch
    holds the first product's record alone, both files receive it, and
    the log names the URL that failed. *)
Example run_with_one_timeout :
  let run := run_parser (server_down_for [url_with_space])
                        (parser_of page_listing page_full) clock disk_ok dump_utf8 w0 in
  fst run = Ok tt
  /\ writes (snd run)
     = [(py "output/zoomagia_products_20240115_103001.json",
         Dumped (json_of [product_record page_full (py "https://zoomagia.ru/shop/a")
                                         (isoformat (clock 0))]));
        (latest_file,
         Dumped (json_of [product_record page_full (py "https://zoomagia.ru/shop/a")
                                         (isoformat (clock 0))]))]
  /\ In (ERROR, py "Error parsing product https://zoomagia.ru/shop/b : Read timed out.")
        (log (snd run))
  /\ slept (snd run) = 4.
Proof.
  cbv zeta. split; [reflexivity|]. split; [reflexivity|]. split; [|reflexivity].
  vm_compute. repeat ((left; reflexivity) || right).
Qed.

(** No link on the listing: nothing is written and the run ends with
    the warning. *)
Example run_without_links :
  let run := run_parser server_up (parser_of page_empty_listing page_full)
                        clock disk_ok dump_utf8 w0 in
  fst run = Ok tt
  /\ writes (snd run) = []
  /\ last (log (snd run)) (INFO, [])
     = (WARNING, py "No products were successfully parsed").
Proof. cbv zeta. repeat split; reflexivity. Qed.

(** The listing cannot be fetched: the run goes on with no links. *)
Example run_with_listing_down :
  let run := run_parser (server_down_for [sale_url])
                        (parser_of page_listing page_full) clock disk_ok dump_utf8 w0 in
  fst run = Ok tt
  /\ writes (snd run) = []
  /\ log (snd run)
     = [(INFO, py "Starting parser run");
        (INFO, py "Fetching product links from https://zoomagia.ru/shop/sale");
        (ERROR, py "Error getting product links: Read timed out.");
        (WARNING, py "No products were successfully parsed")].
Proof. cbv zeta. repeat split; reflexivity. Qed.

(** The files cannot be opened: [save_to_json] logs the error and the
    run still completes. *)
Example run_with_full_disk :
  let run := run_parser server_up (parser_of page_listing page_full)
                        clock disk_full dump_utf8 w0 in
  fst run = Ok tt
  /\ writes (snd run) = []
  /\ In (ERROR, py "Error saving data to JSON: No space left on device")
        (log (snd run)).
Proof.
  cbv zeta. split; [reflexivity|]. split; [reflexivity|].
  vm_compute. repeat ((left; reflexivity) || right).
Qed.

(** A product whose heading holds a lone surrogate: both files can be
    opened, but the dump into the timestamped file raises; that file is
    left partly written, the latest file is not opened, and the error
    is logged. *)
Example run_with_unencodable_text :
  let run := run_parser server_up (parser_of page_listing page_surrogate)
                        clock disk_ok dump_utf8 w0 in
  fst run = Ok tt
  /\ writes (snd run)
     = [(py "output/zoomagia_products_20240115_103002.json", Partial)]
  /\ file_of (writes (snd run)) latest_file = None
  /\ last (removelast (log (snd run))) (INFO, [])
     = (ERROR, py "Error saving data to JSON: 'utf-8' codec can't encode character: surrogates not allowed").
Proof.
  cbv zeta.
  split; [vm_compute; reflexivity|]. split; [vm_compute; reflexivity|].
  split; vm_compute; reflexivity.
Qed.

End Runs.

(* ================================================================== *)
(** ** Manufacturer and category ([_get_manufacturer], [_get_category]) *)
(* ================================================================== *)

Section ManufacturerCategory.

Lemma lstrip_subset (s : pystr) (x : N) : In x (lstrip s) -> In x s.
Proof.
  induction s as [|c r IH]; simpl; [tauto|].
  destruct (isspace c); [intros H; right; exact (IH H) | tauto].
Qed.

Lemma strip_subset (s : pystr) (x : N) : In x (strip s) -> In x s.
Proof.
  unfold strip, rstrip. intros H.
  apply in_rev in H. apply lstrip_subset in H. apply in_rev in H.
  apply lstrip_subset in H. exact H.
Qed.

(** No piece of a split by a one-character separator holds the
    separator. *)
Lemma split_aux_char_free (c : N) (s : pystr) :
  ~ In c (fst (split_aux [c] 0 s))
  /\ Forall (fun p => ~ In c p) (snd (split_aux [c] 0 s)).
Proof.
  induction s as [|x r [IH1 IH2]]; simpl.
  - split; [tauto | constructor].
  - destruct (N.eqb_spec c x) as [E | E]; simpl.
    + destruct (split_aux [c] 0 r) as [p ps]. simpl in *.
      split; [tauto | constructor; assumption].
    + destruct (split_aux [c] 0 r) as [p ps]. simpl in *.
      split; [|exact IH2].
      intros [H | H]; [apply E; symmetry; exact H | exact (IH1 H)].
Qed.

Lemma split_char_free (c : N) (s : pystr) :
  Forall (fun p => ~ In c p) (split [c] s).
Proof.
  unfold split. pose proof (split_aux_char_free c s) as [H1 H2].
  destruct (split_aux [c] 0 s) as [p ps]. constructor; assumption.
Qed.

Lemma filter_blank_tail (post : list pystr) :
  Forall (fun t => strip t = []) post ->
  filter truthy (map strip post) = [].
Proof.
  induction 1 as [|t post Ht _ IH]; simpl; [reflexivity|].
  rewrite Ht. simpl. exact IH.
Qed.

Lemma last_snoc (A : Type) (l : list A) (a d : A) : last (l ++ [a]) d = a.
Proof. apply last_last. Qed.

(** X1: The manufacturer is the last non-blank token of the keywords,
    trimmed: it is not empty and holds no comma, whatever the brand
    link says. *)
Theorem manufacturer_is_last_keyword
        (soup meta : tag) (c : pystr) (pre post : list pystr) (token : pystr) :
  find soup (py "meta") [(py "name", py "keywords")] = Some meta ->
  get meta (py "content") = Some c ->
  split [comma] (strip c) = pre ++ token :: post ->
  strip token <> [] ->
  Forall (fun t => strip t = []) post ->
  _get_manufacturer soup = strip token
  /\ _get_manufacturer soup <> []
  /\ ~ In comma (_get_manufacturer soup)
  /\ strip (_get_manufacturer soup) = _get_manufacturer soup.
Proof.
  intros Hm Hc Hsplit Htok Hpost.
  assert (Hne : c <> []).
  { intros ->. vm_compute in Hsplit.
    destruct pre as [|a [|b pre]]; simpl in Hsplit; try discriminate.
    injection Hsplit as <- _. apply Htok. reflexivity. }
  assert (E : _get_manufacturer soup = strip token).
  { unfold _get_manufacturer, get_truthy. rewrite Hm, Hc.
    apply truthy_true in Hne. rewrite Hne.
    change (py ",") with [comma]. rewrite Hsplit.
    rewrite map_app, filter_app. simpl.
    apply truthy_true in Htok. rewrite Htok.
    rewrite (filter_blank_tail post Hpost).
    destruct (filter truthy (map strip pre) ++ [strip token]) as [|y ys] eqn:El.
    - apply app_eq_nil in El. destruct El as [_ El]. discriminate.
    - rewrite <- El. apply last_snoc. }
  rewrite E. split; [reflexivity|]. split; [exact Htok|]. split.
  - intros Hin. apply strip_subset in Hin.
    pose proof (split_char_free comma (strip c)) as Hfree.
    rewrite Hsplit in Hfree. rewrite Forall_forall in Hfree.
    apply (Hfree token); [apply in_or_app; right; left; reflexivity | exact Hin].
  - apply strip_trimmed.
Qed.

Lemma manufacturer_is_last_keyword_witness :
  _get_manufacturer page_full = py "Acme"
  /\ ~ In comma (_get_manufacturer page_full).
Proof.
  assert (Hm : exists meta,
             find page_full (py "meta") [(py "name", py "keywords")] = Some meta
             /\ get meta (py "content") = Some (py "food, cats, , Acme ")).
  { eexists. split; reflexivity. }
  destruct Hm as [meta [Hm Hc]].
  assert (Hpost : Forall (fun t : pystr => strip t = []) []) by constructor.
  assert (Htok : strip (py " Acme") <> []) by (vm_compute; discriminate).
  destruct (manufacturer_is_last_keyword page_full meta (py "food, cats, , Acme ")
              [py "food"; py " cats"; py " "] [] (py " Acme")
              Hm Hc eq_refl Htok Hpost) as [H1 [_ [H3 _]]].
  split; [exact H1 | exact H3].
Defined.

(** X2: Without a usable keyword (no such meta tag, no or empty [content],
    or a [content] of commas and blanks only) the manufacturer is the
    brand link's trimmed text, and it is empty when there is no brand
    link either. *)
Theorem manufacturer_falls_back_to_brand (soup : tag) :
  no_keyword_token soup ->
  _get_manufacturer soup
  = match select_one soup sel_brand_a with
    | Some brand_link => strip (text brand_link)
    | None => []
    end.
Proof.
  unfold no_keyword_token, _get_manufacturer, get_truthy, get.
  destruct (find soup (py "meta") _) as [meta|]; [|reflexivity].
  destruct (attr_get (tag_attrs meta) (py "content")) as [c|]; [|reflexivity].
  intros Hall. destruct (truthy c); [|reflexivity].
  change (py ",") with [comma].
  rewrite (filter_blank_tail _ Hall). reflexivity.
Qed.

Lemma manufacturer_falls_back_to_brand_witness :
  _get_manufacturer
    (document [el "meta" [("name", "keywords"); ("content", " , ,")]%string [];
               el "div" [("class", "brand")]%string
                  [el "a" [] [txt " Acme "]]])
  = py "Acme".
Proof.
  refine (eq_trans (manufacturer_falls_back_to_brand _ _) _).
  - vm_compute. repeat constructor.
  - reflexivity.
Defined.

(** X3: The category is the trimmed text of the second-to-last breadcrumb,
    and it is empty when there are fewer than two breadcrumbs. *)
Theorem category_is_second_to_last (soup : tag) :
  (forall pre b l,
      select soup sel_breadcrumbs = pre ++ [b; l] ->
      _get_category soup = strip (text b))
  /\ (List.length (select soup sel_breadcrumbs) < 2 -> _get_category soup = [])
  /\ strip (_get_category soup) = _get_category soup.
Proof.
  split; [|split].
  - intros pre b l H. unfold _get_category. rewrite H.
    rewrite length_app. simpl List.length.
    replace (2 <=? List.length pre + 2) with true
      by (symmetry; apply Nat.leb_le; lia).
    replace (List.length pre + 2 - 2) with (List.length pre + 0) by lia.
    rewrite nth_error_app2 by lia.
    replace (List.length pre + 0 - List.length pre) with 0 by lia.
    simpl. destruct (strip (text b)); reflexivity.
  - intros H. unfold _get_category.
    replace (2 <=? List.length (select soup sel_breadcrumbs)) with false
      by (symmetry; apply Nat.leb_gt; exact H).
    reflexivity.
  - apply get_category_trimmed.
Qed.

Example category_of_page_full : _get_category page_full = py "Cats".
Proof. reflexivity. Qed.

End ManufacturerCategory.

(* ================================================================== *)
(** ** Shape of the price and of the record *)
(* ================================================================== *)

Section Shapes.

(** Replacing a one-character string by nothing erases the character. *)
Lemma replace_char_erases (c : N) (s : pystr) :
  replace [c] [] s = filter (fun x => negb (c =? x)%N) s.
Proof.
  unfold replace. induction s as [|x r IH]; simpl; [reflexivity|].
  destruct (c =? x)%N; simpl; [exact IH | rewrite IH; reflexivity].
Qed.

Lemma replace_char_absent (c : N) (s : pystr) : ~ In c (replace [c] [] s).
Proof.
  rewrite replace_char_erases. intros H. apply filter_In in H.
  destruct H as [_ H]. rewrite N.eqb_refl in H. discriminate.
Qed.

(** X4: The price always has its three keys, each holding a string, and
    the current price is trimmed and never holds the rouble sign. *)
Theorem price_has_three_strings (soup : tag) :
  map fst (_get_price soup) = ["old_price"; "current_price"; "discount"]%string
  /\ (forall k, In k ["old_price"; "current_price"; "discount"]%string ->
                exists s, dict_get (_get_price soup) k = Some (PStr s)
                          /\ strip s = s)
  /\ (forall s, dict_get (_get_price soup) "current_price" = Some (PStr s) ->
                ~ In rouble s).
Proof.
  unfold _get_price.
  destruct (select_one soup sel_price_block) as [price_block|].
  - destruct (select_one price_block sel_price_del) as [o|];
      destruct (select_one price_block sel_discount_badge) as [d|]; simpl;
        (split; [reflexivity|]); split;
          try (intros k [<- | [<- | [<- | []]]]; simpl; eexists;
               (split; [reflexivity|]);
               (apply strip_trimmed || reflexivity));
          intros s E; injection E as <-; try tauto;
            change (py "₽") with [rouble];
            intros Hin; apply strip_subset in Hin;
              exact (replace_char_absent _ _ Hin).
  - simpl. split; [reflexivity|]. split.
    + intros k [<- | [<- | [<- | []]]]; simpl; eexists; split; reflexivity.
    + intros s E. injection E as <-. tauto.
Qed.

Lemma dict_set_keys (d : dict) (k : string) (v : pyval) :
  In k (map fst d) -> map fst (dict_set d k v) = map fst d.
Proof.
  induction d as [|[k0 v0] r IH]; simpl; [tauto|].
  intros [E | H].
  - subst k0. rewrite String.eqb_refl. reflexivity.
  - destruct (String.eqb_spec k0 k) as [E | E]; simpl.
    + subst k0. reflexivity.
    + rewrite (IH H). reflexivity.
Qed.

(** The loop changes values only: keys and their order stay. *)
Lemma normalize_keys (d : dict) : map fst (normalize d) = map fst d.
Proof.
  unfold normalize.
  change (fold_left _ d d) with (fold_left norm_step d d).
  assert (H : forall items acc,
             (forall kv, In kv items -> In (fst kv) (map fst acc)) ->
             map fst (fold_left norm_step items acc) = map fst acc).
  { induction items as [|kv items IH]; intros acc Hin; simpl; [reflexivity|].
    assert (E : map fst (norm_step acc kv) = map fst acc).
    { unfold norm_step. destruct (blank_str (snd kv)); [|reflexivity].
      apply dict_set_keys. apply Hin. left. reflexivity. }
    rewrite IH; [exact E|].
    intros kv' Hkv'. rewrite E. apply Hin. right. exact Hkv'. }
  apply H. intros kv Hkv. apply in_map. exact Hkv.
Qed.

Lemma lstrip_nil (s : pystr) : lstrip s = [] -> forall x, In x s -> isspace x = true.
Proof.
  induction s as [|c r IH]; simpl; [tauto|].
  destruct (isspace c) eqn:E; [|discriminate].
  intros H x [<- | Hx]; [exact E | exact (IH H x Hx)].
Qed.

(** A string that holds a non-space is not blank. *)
Lemma strip_nonblank (s : pystr) (c : N) :
  In c s -> isspace c = false -> strip s <> [].
Proof.
  intros Hin Hc Hs. unfold strip, rstrip in Hs.
  assert (Hl : lstrip (rev (lstrip s)) = []).
  { rewrite <- (rev_involutive (lstrip (rev (lstrip s)))), Hs. reflexivity. }
  destruct (lstrip_head s) as [L | [x [r [L E]]]].
  - rewrite (lstrip_nil s L c Hin) in Hc. discriminate.
  - assert (Hx : isspace x = true).
    { apply (lstrip_nil _ Hl). apply -> in_rev. rewrite L. left. reflexivity. }
    rewrite Hx in E. discriminate.
Qed.

Lemma isoformat_not_blank (d : datetime) : strip (isoformat d) <> [].
Proof.
  apply (strip_nonblank _ 84%N); [|reflexivity].
  unfold isoformat. do 5 (apply in_or_app; right).
  apply in_or_app. left. left. reflexivity.
Qed.

Variable requests_get : pystr -> result response.
Variable html_parser : pystr -> result tag.
Variable now : nat -> datetime.

(** X5: A record that [parse_product] returns has the thirteen keys of the
    output schema in their fixed order, holds no blank string at top
    level, keeps its list and price fields as values (never [None]),
    and carries the clock reading as [parsed_date]. *)
Theorem returned_record_shape (url : pystr) (w : world) (record : dict) :
  fst (parse_product requests_get html_parser now url w) = Ok (Some record) ->
  map fst record = record_keys
  /\ (forall k s, dict_get record k = Some (PStr s) -> strip s <> [])
  /\ dict_get record "parsed_date"
     = Some (PStr (isoformat (now (clock_reads w))))
  /\ (exists price images weight reviews,
         dict_get record "price" = Some (PDict price)
         /\ dict_get record "images" = Some (PList images)
         /\ dict_get record "weight" = Some (PList weight)
         /\ dict_get record "reviews" = Some (PList reviews)).
Proof.
  rewrite parse_product_spec.
  destruct (page_of requests_get html_parser url) as [soup | e]; simpl;
    [|discriminate].
  intros E. injection E as <-.
  split; [|split; [|split]].
  - unfold product_record. rewrite normalize_keys, product_fields_unfold.
    reflexivity.
  - intros k s Hk. rewrite product_record_get in Hk.
    destruct (dict_get (fst (product_fields soup url _)) k) as [v|];
      [|discriminate].
    simpl in Hk. unfold normalized in Hk.
    destruct (blank_str v) eqn:Hb; [discriminate|].
    injection Hk as ->. simpl in Hb.
    apply negb_false_iff in Hb. apply truthy_true. exact Hb.
  - rewrite product_record_get, product_fields_unfold. simpl.
    unfold normalized, blank_str.
    pose proof (isoformat_not_blank (now (clock_reads w))) as Hnb.
    apply truthy_true in Hnb. rewrite Hnb. reflexivity.
  - destruct (record_other_fields soup url (isoformat (now (clock_reads w))))
      as [Hi [Hw [Hr Hp]]].
    eexists. eexists. eexists. eexists.
    split; [exact Hp|]. split; [exact Hi|]. split; [exact Hw | exact Hr].
Qed.

End Shapes.

Lemma returned_record_shape_witness :
  map fst (product_record page_full url_with_space (isoformat (clock 0)))
  = record_keys.
Proof.
  apply (returned_record_shape server_up (parser_of page_listing page_full)
           clock url_with_space w0
           (product_record page_full url_with_space (isoformat (clock 0)))).
  reflexivity.
Defined.


(* ================================================================== *)
(** ** What a run does to the world *)
(* ================================================================== *)

Section Effects.

Variable requests_get : pystr -> result response.
Variable html_parser : pystr -> result tag.
Variable now : nat -> datetime.
Variable open_w : pystr -> result unit.
Variable json_dump : pystr -> pyval -> result unit.

Lemma full_url_absolute (href : pystr) : startswith (py "http") (full_url href) = true.
Proof.
  unfold full_url. destruct (startswith (py "http") href) eqn:E; [exact E|].
  reflexivity.
Qed.

Lemma product_links_absolute (soup : tag) :
  Forall (fun u => startswith (py "http") u = true) (product_links_of soup).
Proof.
  rewrite product_links_of_items. apply Forall_forall. intros u Hu.
  apply in_flat_map in Hu. destruct Hu as [item [_ Hu]].
  unfold item_url in Hu.
  destruct (select_one item sel_title_a) as [link|]; [|contradiction].
  destruct (get_truthy link (py "href")) as [href|]; [|contradiction].
  destruct Hu as [<- | []]. apply full_url_absolute.
Qed.

(** X6: [get_product_links] never raises, writes no file, reads no clock
    and does not sleep; every URL it returns starts with "http"; and
    when the sale page cannot be fetched or parsed it returns no link
    and its last log entry is the error. *)
Theorem product_links_absolute_or_none (w : world) :
  exists links w',
    get_product_links requests_get html_parser w = (Ok links, w')
    /\ writes w' = writes w /\ clock_reads w' = clock_reads w
    /\ slept w' = slept w
    /\ Forall (fun u => startswith (py "http") u = true) links
    /\ (forall e, page_of requests_get html_parser sale_url = Raise e ->
                  links = []
                  /\ last (log w') (INFO, [])
                     = (ERROR, py "Error getting product links: " ++ str_exn e)).
Proof.
  unfold get_product_links, page_of, try_except, bind, lift, logging, ret.
  cbn [fst snd log writes clock_reads slept].
  destruct (requests_get sale_url) as [r | e].
  - rewrite raise_for_status_spec.
    destruct (status_error r) as [e|].
    + eexists; eexists. split; [reflexivity|]. cbn [log writes clock_reads slept].
      repeat split; try constructor.
      injection H as <-. rewrite <- app_assoc. apply last_two.
    + destruct (html_parser (resp_text r)) as [soup | e];
        eexists; eexists; (split; [reflexivity|]);
          cbn [log writes clock_reads slept]; repeat split;
            try discriminate; try constructor.
      * apply product_links_absolute.
      * injection H as <-. rewrite <- app_assoc. apply last_two.
  - eexists; eexists. split; [reflexivity|]. cbn [log writes clock_reads slept].
    repeat split; try constructor.
    injection H as <-. rewrite <- app_assoc. apply last_two.
Qed.

(** [get_product_links] returns, and leaves files, clock and sleep
    alone. *)
Lemma get_product_links_quiet (w : world) :
  exists links w',
    get_product_links requests_get html_parser w = (Ok links, w')
    /\ writes w' = writes w /\ slept w' = slept w.
Proof.
  unfold get_product_links, try_except, bind, lift, logging, ret.
  cbn [fst snd log writes clock_reads slept].
  destruct (requests_get sale_url) as [r | e].
  - rewrite raise_for_status_spec.
    destruct (status_error r) as [e|].
    + eexists; eexists. split; [reflexivity|]. split; reflexivity.
    + destruct (html_parser (resp_text r)) as [soup | e];
        eexists; eexists; (split; [reflexivity|]); split; reflexivity.
  - eexists; eexists. split; [reflexivity|]. split; reflexivity.
Qed.

Lemma file_of_last (events : list (pystr * file_content)) (name : pystr)
      (c : file_content) :
  file_of (events ++ [(name, c)]) name = Some c.
Proof.
  induction events as [|[n c0] r IH]; simpl.
  - rewrite str_eqb_refl. reflexivity.
  - rewrite IH. reflexivity.
Qed.

(** X7: [save_to_json] never raises, reads the clock once and adds one
    line to the log.  The first [open] or [json.dump] that raises ends
    the saving and is the error logged: nothing is written when the
    timestamped file cannot be opened; a dump that raises leaves the
    file it was writing partly written, and when that file is the
    latest file its previous content is gone; a latest file that cannot
    be opened leaves the timestamped file written alone.  Only when
    nothing raises do both files hold the document, the timestamped
    one written first, and the latest file then holds it whatever it
    held before. *)
Theorem save_to_json_stops_at_first_failure
        (data : list dict) (filename : pystr) (w : world) :
  exists w' entry,
    save_to_json now open_w json_dump data filename w = (Ok tt, w')
    /\ clock_reads w' = S (clock_reads w)
    /\ log w' = log w ++ [entry]
    /\ (forall e, open_w (stamped_file (now (clock_reads w))) = Raise e ->
                  writes w' = writes w
                  /\ entry = (ERROR, py "Error saving data to JSON: " ++ str_exn e))
    /\ (forall u e,
           open_w (stamped_file (now (clock_reads w))) = Ok u ->
           json_dump (stamped_file (now (clock_reads w))) (json_of data) = Raise e ->
           writes w' = writes w ++ [(stamped_file (now (clock_reads w)), Partial)]
           /\ entry = (ERROR, py "Error saving data to JSON: " ++ str_exn e))
    /\ (forall u u1 e,
           open_w (stamped_file (now (clock_reads w))) = Ok u ->
           json_dump (stamped_file (now (clock_reads w))) (json_of data) = Ok u1 ->
           open_w filename = Raise e ->
           writes w'
           = writes w ++ [(stamped_file (now (clock_reads w)), Dumped (json_of data))]
           /\ entry = (ERROR, py "Error saving data to JSON: " ++ str_exn e))
    /\ (forall u u1 u2 e,
           open_w (stamped_file (now (clock_reads w))) = Ok u ->
           json_dump (stamped_file (now (clock_reads w))) (json_of data) = Ok u1 ->
           open_w filename = Ok u2 ->
           json_dump filename (json_of data) = Raise e ->
           writes w'
           = writes w ++ [(stamped_file (now (clock_reads w)), Dumped (json_of data));
                          (filename, Partial)]
           /\ file_of (writes w') filename = Some Partial
           /\ entry = (ERROR, py "Error saving data to JSON: " ++ str_exn e))
    /\ (forall u u1 u2 u3,
           open_w (stamped_file (now (clock_reads w))) = Ok u ->
           json_dump (stamped_file (now (clock_reads w))) (json_of data) = Ok u1 ->
           open_w filename = Ok u2 ->
           json_dump filename (json_of data) = Ok u3 ->
           writes w'
           = writes w ++ [(stamped_file (now (clock_reads w)), Dumped (json_of data));
                          (filename, Dumped (json_of data))]
           /\ file_of (writes w') filename = Some (Dumped (json_of data))
           /\ fst entry = INFO).
Proof.
  rewrite save_to_json_spec. eexists. eexists.
  split; [reflexivity|]. cbn [log writes clock_reads slept].
  split; [reflexivity|]. split; [reflexivity|].
  unfold save_outcome.
  destruct (open_w (stamped_file (now (clock_reads w)))) as [u | e1];
    [destruct (json_dump (stamped_file (now (clock_reads w))) (json_of data))
       as [u1 | e2];
     [destruct (open_w filename) as [u2 | e3];
      [destruct (json_dump filename (json_of data)) as [u3 | e4]|]|]|];
    cbn [fst snd]; repeat split; intros; try discriminate; try congruence;
      try (rewrite app_nil_r; reflexivity);
      change (writes w ++ [(stamped_file (now (clock_reads w)), Dumped (json_of data));
                           (filename, ?c)])
        with (writes w
              ++ [(stamped_file (now (clock_reads w)), Dumped (json_of data))]
              ++ [(filename, c)]);
      rewrite app_assoc; apply file_of_last.
Qed.

(** One round of the loop, as a step to the rest of the loop. *)
Lemma process_links_step (total i : nat) (link : pystr) (rest : list pystr)
      (acc : list dict) (w : world) :
  exists acc' lg,
    process_links requests_get html_parser now total i (link :: rest) acc w
    = process_links requests_get html_parser now total (S i) rest acc'
        (mkWorld lg (writes w)
           (clock_reads w
            + (if page_ok requests_get html_parser link then 1 else 0))
           (slept w + 2)).
Proof.
  cbn [process_links]. unfold bind at 1. unfold logging at 1.
  unfold bind at 1. rewrite parse_product_spec. unfold page_ok.
  destruct (page_of requests_get html_parser link) as [soup | e].
  - rewrite product_record_nonempty.
    unfold bind at 1. unfold time_sleep at 1.
    cbn [log writes clock_reads slept].
    eexists. eexists. f_equal. f_equal. lia.
  - unfold bind at 1. unfold time_sleep at 1. unfold add_log.
    cbn [log writes clock_reads slept].
    eexists. eexists. f_equal. f_equal. lia.
Qed.

(** What the loop over the links does besides building the batch: it
    sleeps two seconds after every link, reads the clock once for every
    link that could be fetched, and writes no file. *)
Lemma process_links_effects (links : list pystr) :
  forall (total i : nat) (acc : list dict) (w : world),
    slept (snd (process_links requests_get html_parser now total i links acc w))
    = slept w + 2 * List.length links
    /\ clock_reads (snd (process_links requests_get html_parser now total i links acc w))
       = clock_reads w
         + List.length (filter (page_ok requests_get html_parser) links)
    /\ writes (snd (process_links requests_get html_parser now total i links acc w))
       = writes w.
Proof.
  induction links as [|link rest IH]; intros total i acc w.
  - cbn. repeat split; lia.
  - destruct (process_links_step total i link rest acc w) as [acc' [lg E]].
    rewrite E.
    match goal with
    | |- context [process_links _ _ _ total (S i) rest acc' ?w1] =>
      destruct (IH total (S i) acc' w1) as [H1 [H2 H3]]
    end.
    rewrite H1, H2, H3. cbn [slept clock_reads writes List.length filter].
    destruct (page_ok requests_get html_parser link);
      cbn [List.length]; repeat split; lia.
Qed.

(** X8: A run never raises; it sleeps two seconds for every discovered
    link, fetched or not; and it opens at most two files for writing,
    each of them the latest file or a timestamped file. *)
Theorem run_parser_total_and_polite (w : world) :
  exists links w1,
    get_product_links requests_get html_parser
                      (add_log w [(INFO, py "Starting parser run")])
    = (Ok links, w1)
    /\ fst (run_parser requests_get html_parser now open_w json_dump w) = Ok tt
    /\ slept (snd (run_parser requests_get html_parser now open_w json_dump w))
       = slept w + 2 * List.length links
    /\ exists new,
         writes (snd (run_parser requests_get html_parser now open_w json_dump w))
         = writes w ++ new
         /\ List.length new <= 2
         /\ forall name content,
              In (name, content) new ->
              name = latest_file \/ exists t, name = stamped_file t.
Proof.
  destruct (get_product_links_quiet
              (add_log w [(INFO, py "Starting parser run")]))
    as [links [w1 [Hlinks [Hw1 Hs1]]]].
  exists links, w1. split; [exact Hlinks|].
  destruct (process_links_spec requests_get html_parser now links
              (List.length links) 0 [] w1) as [batch [w2 [Hrun _]]].
  destruct (process_links_effects links (List.length links) 0 [] w1)
    as [Hs2 [_ Hw2]].
  rewrite Hrun in Hs2, Hw2. cbn [snd app] in Hs2, Hw2, Hrun.
  assert (Hunfold :
            run_parser requests_get html_parser now open_w json_dump w
            = match batch with
              | _ :: _ =>
                (Ok tt,
                 add_log (snd (save_to_json now open_w json_dump batch latest_file w2))
                   [(INFO, py "Parser run completed. Processed "
                           ++ str_of_nat (List.length batch) ++ py " products")])
              | [] =>
                (Ok tt,
                 add_log w2 [(WARNING, py "No products were successfully parsed")])
              end).
  { unfold run_parser. unfold bind at 1. unfold logging at 1.
    unfold bind at 1. unfold add_log in Hlinks.
    cbn [log writes clock_reads slept]. cbn [log writes clock_reads slept] in Hlinks.
    rewrite Hlinks. unfold bind at 1. rewrite Hrun.
    destruct batch as [|d ds]; [reflexivity|].
    unfold bind at 1. rewrite save_to_json_spec. reflexivity. }
  rewrite Hunfold. unfold add_log in Hs1, Hw1. cbn [slept writes] in Hs1, Hw1.
  destruct batch as [|d ds].
  - unfold add_log. cbn [fst snd slept writes].
    split; [reflexivity|]. split; [lia|].
    exists []. rewrite app_nil_r. split; [congruence|].
    split; [simpl; lia | intros name content []].
  - rewrite save_to_json_spec. unfold add_log. cbn [fst snd slept writes].
    split; [reflexivity|]. split; [lia|].
    eexists. split; [rewrite Hw2, Hw1; reflexivity|].
    unfold save_outcome.
    destruct (open_w (stamped_file (now (clock_reads w2))));
      [destruct (json_dump (stamped_file (now (clock_reads w2))) _);
       [destruct (open_w latest_file);
        [destruct (json_dump latest_file _)|]|]|];
      cbn [fst]; (split; [simpl; lia|]);
        intros name content Hin; simpl in Hin;
          repeat (destruct Hin as [Hin | Hin];
                  [injection Hin as <- _;
                   first [left; reflexivity | right; eexists; reflexivity]|]);
          contradiction.
Qed.

End Effects.

(* ================================================================== *)
(** ** Tab contents ([_get_tab_content]) *)
(* ================================================================== *)

Section TabContent.

Lemma hd_error_app_some (A : Type) (l m : list A) (x : A) :
  hd_error l = Some x -> hd_error (l ++ m) = Some x.
Proof. destruct l; [discriminate | intros H; exact H]. Qed.

Lemma hd_error_nil (A : Type) (l : list A) : hd_error l = None -> l = [].
Proof. destruct l; [reflexivity | discriminate]. Qed.

(** After the matching tags were decomposed none is left. *)
Lemma remove_node_clean (q : list header -> pystr -> attrs -> bool) (n : node) :
  forall ctx, flat_map (search q ctx) (remove_node q ctx n) = [].
Proof.
  induction n as [k s | nm a cs IH] using node_induction; intros ctx.
  - reflexivity.
  - simpl. destruct (q ctx nm a) eqn:Hq; [reflexivity|].
    simpl. rewrite Hq, app_nil_r. simpl.
    induction IH as [|x r Hx _ IHr]; [reflexivity|].
    simpl. rewrite flat_map_app, Hx, IHr. reflexivity.
Qed.

Lemma remove_nodes_clean (q : list header -> pystr -> attrs -> bool)
      (cs : list node) (ctx : list header) :
  flat_map (search q ctx) (flat_map (remove_node q ctx) cs) = [].
Proof.
  induction cs as [|x r IH]; [reflexivity|].
  simpl. rewrite flat_map_app, remove_node_clean, IH. reflexivity.
Qed.

(** Decomposing tags creates no match for another test. *)
Lemma remove_node_no_new_match
      (s q : list header -> pystr -> attrs -> bool) (n : node) :
  forall ctx, search s ctx n = [] ->
              flat_map (search s ctx) (remove_node q ctx n) = [].
Proof.
  induction n as [k t | nm a cs IH] using node_induction; intros ctx H.
  - reflexivity.
  - simpl in *. destruct (q ctx nm a); [reflexivity|].
    simpl. destruct (s ctx nm a); [discriminate|].
    simpl in *. rewrite app_nil_r.
    induction IH as [|x r Hx _ IHr]; [reflexivity|].
    simpl in *. apply app_eq_nil in H. destruct H as [H1 H2].
    rewrite flat_map_app, (Hx _ H1), (IHr H2). reflexivity.
Qed.

Lemma remove_nodes_no_new_match
      (s q : list header -> pystr -> attrs -> bool)
      (cs : list node) (ctx : list header) :
  flat_map (search s ctx) cs = [] ->
  flat_map (search s ctx) (flat_map (remove_node q ctx) cs) = [].
Proof.
  induction cs as [|x r IH]; [reflexivity|]. simpl. intros H.
  apply app_eq_nil in H. destruct H as [H1 H2].
  rewrite flat_map_app, (remove_node_no_new_match s q x ctx H1), (IH H2).
  reflexivity.
Qed.

Variable p : list header -> pystr -> attrs -> bool.
Variable f : tag -> tag.

(** The tag [f] made of a tag: same place, name and attributes. *)
Definition rebuilt (t : tag) : tag :=
  mkTag (parents t) (name t) (tag_attrs t) (contents (f t)).

(** What the search finds first after [update_node] ran. *)
Definition first_after_update (found : list tag) (updated : option (list node))
           (ctx : list header) : Prop :=
  match found with
  | [] => updated = None
  | t :: _ =>
    exists cs', updated = Some cs'
                /\ hd_error (flat_map (search p ctx) cs') = Some (rebuilt t)
  end.

Lemma update_node_first (n : node) :
  forall ctx,
    first_after_update (search p ctx n)
                       (option_map (fun x => [x]) (update_node p f ctx n)) ctx.
Proof.
  induction n as [k s | nm a cs IH] using node_induction; intros ctx.
  - reflexivity.
  - simpl. destruct (p ctx nm a) eqn:Hp.
    + simpl. eexists. split; [reflexivity|]. simpl. rewrite Hp. reflexivity.
    + simpl.
      assert (H : first_after_update
                    (flat_map (search p (mkHeader nm a :: ctx)) cs)
                    (update_first (update_node p f (mkHeader nm a :: ctx)) cs)
                    (mkHeader nm a :: ctx)).
      { induction IH as [|x r Hx _ IHr]; [reflexivity|].
        simpl. specialize (Hx (mkHeader nm a :: ctx)).
        unfold first_after_update in *.
        destruct (search p (mkHeader nm a :: ctx) x) as [|t ts] eqn:Hsx.
        - simpl. destruct (update_node p f (mkHeader nm a :: ctx) x);
            [discriminate|].
          destruct (flat_map (search p (mkHeader nm a :: ctx)) r).
          + rewrite IHr. reflexivity.
          + destruct IHr as [cs' [E Hh]]. rewrite E.
            eexists. split; [reflexivity|]. simpl. rewrite Hsx. exact Hh.
        - simpl. destruct Hx as [cs' [E Hh]].
          destruct (update_node p f (mkHeader nm a :: ctx) x) as [x'|];
            [|discriminate].
          simpl in E. injection E as <-.
          eexists. split; [reflexivity|]. simpl in *.
          rewrite app_nil_r in Hh. apply hd_error_app_some. exact Hh. }
      unfold first_after_update in *.
      destruct (flat_map (search p (mkHeader nm a :: ctx)) cs).
      * rewrite H. reflexivity.
      * destruct H as [cs' [E Hh]]. rewrite E.
        eexists. split; [reflexivity|]. simpl. rewrite Hp, !app_nil_r.
        exact Hh.
Qed.

Lemma update_first_first (cs : list node) (ctx : list header) :
  first_after_update (flat_map (search p ctx) cs)
                     (update_first (update_node p f ctx) cs) ctx.
Proof.
  induction cs as [|x r IH]; [reflexivity|].
  simpl. pose proof (update_node_first x ctx) as Hx.
  unfold first_after_update in *.
  destruct (search p ctx x) as [|t ts] eqn:Hsx.
  - simpl. destruct (update_node p f ctx x); [discriminate|].
    destruct (flat_map (search p ctx) r).
    + rewrite IH. reflexivity.
    + destruct IH as [cs' [E Hh]]. rewrite E.
      eexists. split; [reflexivity|]. simpl. rewrite Hsx. exact Hh.
  - simpl. destruct Hx as [cs' [E Hh]].
    destruct (update_node p f ctx x) as [x'|]; [|discriminate].
    simpl in E. injection E as <-.
    eexists. split; [reflexivity|]. simpl in *.
    rewrite app_nil_r in Hh. apply hd_error_app_some. exact Hh.
Qed.

(** After the update the first match is the rebuilt tag. *)
Lemma update_within_first (t x : tag) :
  hd_error (descendants_matching p t) = Some x ->
  hd_error (descendants_matching p (update_within p f t)) = Some (rebuilt x).
Proof.
  unfold update_within, descendants_matching.
  pose proof (update_first_first (contents t) (header_of t :: parents t)) as H.
  unfold first_after_update in H.
  destruct (flat_map (search p (header_of t :: parents t)) (contents t))
    as [|y ys]; [discriminate|].
  simpl. intros E. injection E as ->.
  destruct H as [cs' [E Hh]]. rewrite E. exact Hh.
Qed.

Variable s : list header -> pystr -> attrs -> bool.

Hypothesis f_no_new_match :
  forall t, flat_map (search s (header_of t :: parents t)) (contents t) = [] ->
            flat_map (search s (header_of t :: parents t)) (contents (f t)) = [].

(** An update that creates no match inside the tag it rewrites creates
    none in the document. *)
Lemma update_node_no_new_match (n : node) :
  forall ctx n', search s ctx n = [] -> update_node p f ctx n = Some n' ->
                 search s ctx n' = [].
Proof.
  induction n as [k t | nm a cs IH] using node_induction; intros ctx n' H U.
  - discriminate.
  - simpl in *. destruct (s ctx nm a) eqn:Hs; [discriminate|]. simpl in H.
    destruct (p ctx nm a).
    + injection U as <-. simpl. rewrite Hs. simpl.
      exact (f_no_new_match (mkTag ctx nm a cs) H).
    + destruct (update_first (update_node p f (mkHeader nm a :: ctx)) cs)
        as [cs'|] eqn:Ucs; [|discriminate].
      injection U as <-. simpl. rewrite Hs. simpl.
      revert cs' Ucs H. induction IH as [|x r Hx _ IHr]; intros cs' Ucs H.
      * discriminate.
      * simpl in *. apply app_eq_nil in H. destruct H as [H1 H2].
        destruct (update_node p f (mkHeader nm a :: ctx) x) as [x'|] eqn:Ux.
        -- injection Ucs as <-. simpl.
           rewrite (Hx _ _ H1 Ux), H2. reflexivity.
        -- destruct (update_first (update_node p f (mkHeader nm a :: ctx)) r)
             as [r'|] eqn:Ur; [|discriminate].
           injection Ucs as <-. simpl.
           rewrite H1, (IHr r' eq_refl H2). reflexivity.
Qed.

Lemma update_within_no_new_match (t : tag) :
  descendants_matching s t = [] ->
  descendants_matching s (update_within p f t) = [].
Proof.
  unfold update_within, descendants_matching. intros H.
  destruct (update_first (update_node p f (header_of t :: parents t)) (contents t))
    as [cs'|] eqn:U; [|exact H].
  simpl. unfold header_of in *. simpl.
  revert cs' U H. generalize (mkHeader (name t) (tag_attrs t) :: parents t) as ctx.
  induction (contents t) as [|x r IHr]; intros ctx cs' U H.
  - discriminate.
  - simpl in *. apply app_eq_nil in H. destruct H as [H1 H2].
    destruct (update_node p f ctx x) as [x'|] eqn:Ux.
    + injection U as <-. simpl.
      rewrite (update_node_no_new_match x ctx x' H1 Ux), H2. reflexivity.
    + destruct (update_first (update_node p f ctx) r) as [r'|] eqn:Ur;
        [|discriminate].
      injection U as <-. simpl. rewrite H1, (IHr ctx r' Ur H2). reflexivity.
Qed.

End TabContent.

Section TabContentProperties.

(** X9: Extracting a tab a second time from the document the first call
    left behind returns the same text and the same document: the first
    call decomposed every script and style tag of the tab, so the tab
    found afterwards holds none.  A document without the tab gives the
    empty string and is left alone. *)
Theorem tab_content_settles_after_first_call (soup : tag) (tab_id : selector) :
  _get_tab_content (snd (_get_tab_content soup tab_id)) tab_id
  = _get_tab_content soup tab_id
  /\ (forall tab, select_one (snd (_get_tab_content soup tab_id)) tab_id = Some tab ->
                  select tab script_or_style = [])
  /\ (select_one soup tab_id = None -> _get_tab_content soup tab_id = ([], soup)).
Proof.
  destruct (select_one soup tab_id) as [tab|] eqn:Hs.
  - set (F := decompose_all (selector_match script_or_style)).
    set (soup1 := update_within (selector_match tab_id) F soup).
    assert (E : _get_tab_content soup tab_id = (get_text_strip newline (F tab), soup1)).
    { unfold _get_tab_content. rewrite Hs. reflexivity. }
    rewrite E. cbn [snd].
    assert (H1 : select_one soup1 tab_id = Some (F tab)).
    { unfold select_one, select, soup1.
      rewrite (update_within_first (selector_match tab_id) F soup tab Hs).
      reflexivity. }
    assert (Hclean : select (F tab) script_or_style = []).
    { unfold select, descendants_matching, F, decompose_all. simpl.
      apply remove_nodes_clean. }
    assert (Hfix : F (F tab) = F tab).
    { unfold F at 1. unfold decompose_all.
      unfold select, descendants_matching in Hclean.
      rewrite (remove_nodes_nothing _ _ _ Hclean).
      destruct (F tab); reflexivity. }
    split; [|split].
    + unfold _get_tab_content. rewrite H1. fold F. rewrite Hfix.
      f_equal. apply update_within_fixed.
      unfold select_one, select in H1. rewrite H1.
      rewrite Hfix. reflexivity.
    + intros tab' E'. rewrite H1 in E'. injection E' as <-. exact Hclean.
    + discriminate.
  - assert (E : _get_tab_content soup tab_id = ([], soup)).
    { unfold _get_tab_content. rewrite Hs. reflexivity. }
    rewrite E. cbn [snd]. split; [|split].
    + exact E.
    + intros tab E'. rewrite Hs in E'. discriminate.
    + reflexivity.
Qed.

Lemma tab_missing_text (soup : tag) (tab_id : selector) :
  select_one soup tab_id = None -> fst (_get_tab_content soup tab_id) = [].
Proof. intros H. unfold _get_tab_content. rewrite H. reflexivity. Qed.

(** Extracting one tab does not make another, missing tab appear. *)
Lemma tab_missing_preserved (soup : tag) (tab_id other : selector) :
  select_one soup tab_id = None ->
  select_one (snd (_get_tab_content soup other)) tab_id = None.
Proof.
  intros H. unfold _get_tab_content.
  destruct (select_one soup other) as [tab|]; [|exact H].
  cbn [snd]. unfold select_one, select in *.
  apply hd_error_nil in H.
  rewrite (update_within_no_new_match (selector_match other)
             (decompose_all (selector_match script_or_style))
             (selector_match tab_id)); [reflexivity | | exact H].
  intros t Ht. unfold decompose_all. simpl.
  apply remove_nodes_no_new_match. exact Ht.
Qed.

(** X10: A page without one of the four tab containers gets [None] in the
    text field read from it, whatever the other tabs hold. *)
Theorem missing_tab_field_is_none
        (soup : tag) (url parsed_date : pystr) (k : string) (tab_id : selector) :
  In (k, tab_id) tab_fields ->
  select_one soup tab_id = None ->
  dict_get (product_record soup url parsed_date) k = Some PNone.
Proof.
  intros Hin Hs. rewrite product_record_get, product_fields_unfold.
  unfold tab_fields in Hin. simpl in Hin.
  destruct Hin as [E | [E | [E | [E | []]]]]; injection E as <- <-; simpl.
  - rewrite (tab_missing_text soup tab_des Hs). reflexivity.
  - rewrite tab_missing_text; [reflexivity|].
    unfold after_des. apply tab_missing_preserved. exact Hs.
  - rewrite tab_missing_text; [reflexivity|].
    unfold after_composition, after_des.
    do 2 apply tab_missing_preserved. exact Hs.
  - rewrite tab_missing_text; [reflexivity|].
    unfold after_analysis, after_composition, after_des.
    do 3 apply tab_missing_preserved. exact Hs.
Qed.

Lemma missing_tab_field_is_none_witness :
  dict_get (product_record page_full url_with_space (isoformat (clock 0)))
           "feeding_norm" = Some PNone.
Proof.
  apply (missing_tab_field_is_none page_full url_with_space (isoformat (clock 0))
           "feeding_norm"%string tab_feeding_rates).
  - simpl. tauto.
  - reflexivity.
Defined.

Example tab_content_of_page_full :
  fst (_get_tab_content page_full tab_des) = py "Tasty" ++ newline ++ py "food"
  /\ select (snd (_get_tab_content page_full tab_des)) script_or_style = []
  /\ List.length (select page_full script_or_style) = 1.
Proof. repeat split; reflexivity. Qed.

End TabContentProperties.

Section HttpStatus.

Variable requests_get : pystr -> result response.
Variable html_parser : pystr -> result tag.
Variable now : nat -> datetime.

(** X11: A response whose status is between 400 and 599 is a failure
    whatever its body holds: no record, no clock reading, an error in
    the log.  Any other status, a redirect or an informational one
    included, has its body parsed like a 200. *)
Theorem only_error_statuses_fail (url : pystr) (r : response) (w : world) :
  requests_get url = Ok r ->
  (400 <= status_code r < 600 ->
   fst (parse_product requests_get html_parser now url w) = Ok None
   /\ clock_reads (snd (parse_product requests_get html_parser now url w))
      = clock_reads w
   /\ exists msg, last (log (snd (parse_product requests_get html_parser now url w)))
                       (INFO, [])
                  = (ERROR, py "Error parsing product " ++ url ++ py ": "
                            ++ str_of_nat (status_code r) ++ msg))
  /\ (status_code r < 400 \/ 600 <= status_code r ->
      forall soup, html_parser (resp_text r) = Ok soup ->
                   fst (parse_product requests_get html_parser now url w)
                   = Ok (Some (product_record soup url
                                 (isoformat (now (clock_reads w)))))).
Proof.
  intros Hr. rewrite parse_product_spec. unfold page_of. rewrite Hr.
  unfold status_error. split.
  - intros [Hlo Hhi].
    destruct (status_code r <? 500) eqn:E5.
    + replace (400 <=? status_code r) with true
        by (symmetry; apply Nat.leb_le; exact Hlo).
      cbn. split; [reflexivity|]. split; [reflexivity|].
      eexists. rewrite last_two. reflexivity.
    + rewrite andb_false_r.
      replace (500 <=? status_code r) with true
        by (symmetry; apply Nat.leb_le; apply Nat.ltb_ge in E5; exact E5).
      replace (status_code r <? 600) with true
        by (symmetry; apply Nat.ltb_lt; exact Hhi).
      cbn. split; [reflexivity|]. split; [reflexivity|].
      eexists. rewrite last_two. reflexivity.
  - intros Hout soup Hp.
    replace ((400 <=? status_code r) && (status_code r <? 500)) with false.
    + replace ((500 <=? status_code r) && (status_code r <? 600)) with false.
      * rewrite Hp. reflexivity.
      * symmetry. apply andb_false_iff. destruct Hout as [H | H].
        -- left. apply Nat.leb_gt. lia.
        -- right. apply Nat.ltb_ge. exact H.
    + symmetry. apply andb_false_iff. destruct Hout as [H | H].
      * left. apply Nat.leb_gt. exact H.
      * right. apply Nat.ltb_ge. lia.
Qed.

End HttpStatus.

Lemma only_error_statuses_fail_witness :
  fst (parse_product (fun u => Ok (mkResponse 404 (py "Not Found") u u))
                     (parser_of page_listing page_full) clock url_with_space w0)
  = Ok None
  /\ fst (parse_product (fun u => Ok (mkResponse 302 (py "Found") u u))
                        (parser_of page_listing page_full) clock url_with_space w0)
     = Ok (Some (product_record page_full url_with_space (isoformat (clock 0)))).
Proof.
  split.
  - refine (proj1 (proj1 (only_error_statuses_fail
                            (fun u => Ok (mkResponse 404 (py "Not Found") u u))
                            (parser_of page_listing page_full) clock
                            url_with_space _ w0 eq_refl) _)).
    simpl. lia.
  - refine (proj2 (only_error_statuses_fail
                     (fun u => Ok (mkResponse 302 (py "Found") u u))
                     (parser_of page_listing page_full) clock
                     url_with_space _ w0 eq_refl) _ page_full eq_refl).
    simpl. lia.
Defined.

Section BatchSchema.

Variable requests_get : pystr -> result response.
Variable html_parser : pystr -> result tag.
Variable now : nat -> datetime.

(** X12: The batch the loop builds never holds more records than there are
    links, and each of its records has the thirteen keys of the output
    schema in their fixed order. *)
Theorem batch_records_follow_schema
        (links : list pystr) (total i : nat) (w : world) :
  exists batch w',
    process_links requests_get html_parser now total i links [] w = (Ok batch, w')
    /\ List.length batch <= List.length links
    /\ Forall (fun record => map fst record = record_keys) batch.
Proof.
  destruct (process_links_spec requests_get html_parser now links total i [] w)
    as [batch [w' [Hrun [_ HF]]]].
  exists batch, w'. split; [exact Hrun|]. split.
  - rewrite <- (Forall2_length HF). apply filter_length_le.
  - clear Hrun. induction HF as [|u r us rs [soup [d [_ ->]]] _ IH]; constructor.
    + unfold product_record. rewrite normalize_keys, product_fields_unfold.
      reflexivity.
    + exact IH.
Qed.

End BatchSchema.
